(** * Social Insecurity: the request handlers of [social_insecurity/routes.py]

    A shallow embedding of the route handlers (index, logout, stream,
    comments, friends, profile, uploads) and of the [login_required]
    decorator, with the properties of the handlers proved over it.

    Flask's ambient objects are made explicit: the relational store is four
    tables kept in insertion order, the uploads directory a finite map from
    file names to contents, and Flask's session object is held in two parts.
    The map [session] has the keys the views themselves set and test, the
    sign-in keys [user_id] and [username]; the list [flashes] is the value of
    the session's [_flashes] key, under which [flash] queues its notices, the
    key being absent when the list is empty.  [session.clear()] empties both
    parts.  A handler is a computation over that state which either runs to
    its final [return] or leaves early with a response
    ([return redirect(...)], [abort(403)], an exception that escapes the
    view).

    What the source imports and does not define is a parameter of the
    views: the configuration, the file-name sanitizer, the case mapping of
    names that come from a URL, the verdict of the form validators on a
    submission, the clock of the store and the random token of an upload. *)

From stdpp Require Import base option list gmap sets strings sorting.
From Stdlib Require Import ZArith Ascii String Lia.

Local Open Scope Z_scope.

(** ** Strings

    Names are sequences of bytes, the UTF-8 encoding of the text: a dot or
    another ASCII character of the text is one byte of that value, and the
    tests for a dot or for an ASCII suffix are the same on either.  [lower]
    is the case mapping of the ASCII letters, which is what [str.lower] does
    on ASCII text; it stands for [str.lower] where the text is ASCII, as the
    sanitized names are.  Where a name comes from a URL and may be any text,
    [str.lower] is a parameter. *)

Module Str.

Definition lower_ascii (c : ascii) : ascii :=
  let n := N_of_ascii c in
  if ((65 <=? n)%N && (n <=? 90)%N)%bool then ascii_of_N (n + 32) else c.

(** [s.lower()] for ASCII text *)
Fixpoint lower (s : string) : string :=
  match s with
  | EmptyString => EmptyString
  | String c r => String (lower_ascii c) (lower r)
  end.

(** [s.endswith(suf)] *)
Fixpoint endswith (s suf : string) : bool :=
  if String.eqb s suf then true
  else match s with
       | EmptyString => false
       | String _ r => endswith r suf
       end.

(** [s.endswith((suf1, suf2, ...))] *)
Definition endswith_any (s : string) (sufs : list string) : bool :=
  existsb (endswith s) sufs.

(** ["." in s] *)
Fixpoint has_dot (s : string) : bool :=
  match s with
  | EmptyString => false
  | String c r => if Ascii.eqb c "." then true else has_dot r
  end.

(** [s.rsplit(".", 1)[-1]]: what follows the last dot, the whole of [s]
    when it has none. *)
Fixpoint rsplit_last (s : string) : string :=
  match s with
  | EmptyString => EmptyString
  | String c r =>
      if has_dot r then rsplit_last r
      else if Ascii.eqb c "." then r
      else String c r
  end.

End Str.

(** ** Configuration ([app.config], [app.instance_path]) *)

Record Config := {
  instance_path : string;
  UPLOADS_FOLDER_PATH : string;
  (** [None] when the key is not configured *)
  ALLOWED_EXTENSIONS : option (gset string)
}.

(** [app.config.get("ALLOWED_EXTENSIONS", set())] *)
Definition allowed_extensions (cfg : Config) : gset string :=
  default ∅ (ALLOWED_EXTENSIONS cfg).

(** [Path(app.instance_path) / app.config["UPLOADS_FOLDER_PATH"]] *)
Definition upload_dir (cfg : Config) : string :=
  (instance_path cfg +:+ "/" +:+ UPLOADS_FOLDER_PATH cfg)%string.

(** The extension the serving route computes from the lowercase name:
    [lower.rsplit(".", 1)[-1] if "." in lower else ""]. *)
Definition serve_ext (lower : string) : string :=
  if Str.has_dot lower then Str.rsplit_last lower else EmptyString.

(** The extension the stream handler computes from the sanitized name:
    [raw.rsplit(".", 1)[-1].lower() if "." in raw else ""]. *)
Definition upload_ext (raw : string) : string :=
  if Str.has_dot raw then Str.lower (Str.rsplit_last raw) else EmptyString.

(** ** Session and flash queue *)

(** What a session key can hold: the integer id or the username that the
    login branch stores. *)
Inductive sval :=
  | VInt (n : Z)
  | VStr (s : string).

#[global] Instance sval_eq_dec : EqDecision sval.
Proof. solve_decision. Defined.

(** ** The relational store

    One module per table, named after the spec's entity; the record fields
    are the columns.  A nullable text column is an [option string]. *)

Module User.
Record row := {
  id : Z;
  username : string;
  first_name : string;
  last_name : string;
  password : string;
  education : option string;
  employment : option string;
  music : option string;
  movie : option string;
  nationality : option string;
  birthday : option string
}.
#[global] Instance row_eq_dec : EqDecision row.
Proof. solve_decision. Defined.
End User.

Module Post.
Record row := {
  id : Z;
  u_id : Z;
  content : string;
  image : option string;
  creation_time : Z
}.
#[global] Instance row_eq_dec : EqDecision row.
Proof. solve_decision. Defined.
End Post.

Module Comment.
Record row := {
  id : Z;
  p_id : Z;
  u_id : Z;
  comment : string;
  creation_time : Z
}.
#[global] Instance row_eq_dec : EqDecision row.
Proof. solve_decision. Defined.
End Comment.

Module Friend.
Record row := {
  u_id : Z;
  f_id : Z
}.
#[global] Instance row_eq_dec : EqDecision row.
Proof. solve_decision. Defined.
End Friend.

(** The tables, rows in insertion order.  They are lists, not sets: nothing
    in the handlers' statements keeps two rows from being equal. *)
Record Database := {
  Users : list User.row;
  Posts : list Post.row;
  Comments : list Comment.row;
  Friends : list Friend.row
}.

(** The six profile columns, as the profile form submits them and as a
    fresh Users row receives them from the column defaults. *)
Record Profile := {
  pr_education : option string;
  pr_employment : option string;
  pr_music : option string;
  pr_movie : option string;
  pr_nationality : option string;
  pr_birthday : option string
}.

(** Modelled from the spec: the table definitions are not part of the
    source.  The id column that no INSERT of the handlers supplies is filled
    by the store with a value not yet in use: one more than the largest id of
    the table, 1 for an empty table. *)
Definition next_rowid (ids : list Z) : Z :=
  match ids with
  | [] => 1
  | x :: r => 1 + foldr Z.max x r
  end.

(** ** Requests, responses *)

Inductive method := GET | HEAD | POST.

#[global] Instance method_eq_dec : EqDecision method.
Proof. solve_decision. Defined.

(** An uploaded file as the form field hands it over ([FileStorage]). *)
Module FileStorage.
Record t := {
  filename : string;
  stream : string
}.
End FileStorage.

(** The forms.  [validate] is the verdict of the form library's validators
    on this submission; the fields are the [.data] the handlers read. *)
Module LoginForm.
Record t := {
  username : string;
  password : string;
  submit : bool;
  validate : bool
}.
End LoginForm.

Module RegisterForm.
Record t := {
  username : string;
  first_name : string;
  last_name : string;
  password : string;
  submit : bool;
  validate : bool
}.
End RegisterForm.

Module IndexForm.
Record t := {
  login : LoginForm.t;
  register : RegisterForm.t
}.
End IndexForm.

Module PostForm.
Record t := {
  content : string;
  image : option FileStorage.t;
  validate : bool
}.
End PostForm.

Module CommentsForm.
Record t := {
  comment : string;
  validate : bool
}.
End CommentsForm.

Module FriendsForm.
Record t := {
  username : string;
  validate : bool
}.
End FriendsForm.

Module ProfileForm.
Record t := {
  data : Profile;
  validate : bool
}.
End ProfileForm.

(** One request: its method, the bound form, and the two values the
    environment supplies while it is served, the store's [CURRENT_TIMESTAMP]
    and the result of [secrets.token_hex(8)]. *)
Record Request (Form : Type) := {
  req_method : method;
  req_form : Form;
  CURRENT_TIMESTAMP : Z;
  token_hex : string
}.
Arguments req_method {Form} _.
Arguments req_form {Form} _.
Arguments CURRENT_TIMESTAMP {Form} _.
Arguments token_hex {Form} _.

(** [url_for(endpoint, ...)] with the keyword arguments as they are passed;
    the username argument can be whatever [session.get] produced. *)
Inductive Url :=
  | url_for_index
  | url_for_stream (username : option sval)
  | url_for_comments (username : option sval) (post_id : Z)
  | url_for_friends (username : option sval)
  | url_for_profile (username : option sval).

(** The rows of the reading queries. *)
Record StreamRow := {
  sr_post : Post.row;
  sr_user : User.row;
  sr_cc : Z
}.

#[global] Instance StreamRow_eq_dec : EqDecision StreamRow.
Proof. solve_decision. Defined.

(** [render_template(name, ...)] with its keyword arguments. *)
Inductive Page :=
  | index_html (form : IndexForm.t)
  | stream_html (username : option sval) (form : PostForm.t) (posts : list StreamRow)
  | comments_html (username : option sval) (form : CommentsForm.t)
      (post : option (Post.row * User.row)) (comments : list (Comment.row * User.row))
  | friends_html (username : option sval) (friends : list (Friend.row * User.row))
      (form : FriendsForm.t)
  | profile_html (username : option sval) (user : option User.row) (form : ProfileForm.t).

Inductive exn :=
  | KeyError (key : string)
  | TypeError
  | FileNotFoundError.

Inductive Response :=
  | Redirect (location : Url)
  | Render (page : Page)
  | Abort (code : Z)
  | SendFromDirectory (directory filename : string)
  | Raised (e : exn).

(** ** Handler state and the handler monad *)

Record State := {
  (** the session without its [_flashes] key *)
  session : gmap string sval;
  (** the notices queued under the session's [_flashes] key, (category,
      message) pairs, oldest first; empty when the key is absent *)
  flashes : list (string * string);
  db : Database;
  (** the files of the uploads directory by name; [None] while the
      directory does not exist *)
  uploaded : option (gmap string string)
}.

Definition with_session (s : gmap string sval) (st : State) : State :=
  {| session := s; flashes := flashes st; db := db st; uploaded := uploaded st |}.

Definition with_flashes (f : list (string * string)) (st : State) : State :=
  {| session := session st; flashes := f; db := db st; uploaded := uploaded st |}.

Definition with_db (d : Database) (st : State) : State :=
  {| session := session st; flashes := flashes st; db := d; uploaded := uploaded st |}.

Definition with_uploaded (u : option (gmap string string)) (st : State) : State :=
  {| session := session st; flashes := flashes st; db := db st; uploaded := u |}.

(** A step of a view either goes on with a value or ends the view with a
    response. *)
Inductive outcome (A : Type) :=
  | Next (a : A)
  | Return (r : Response).
Arguments Next {A} a.
Arguments Return {A} r.

Definition M (A : Type) : Type := State → outcome A * State.

Definition ret {A} (a : A) : M A := λ st, (Next a, st).

Definition bind {A B} (m : M A) (k : A → M B) : M B :=
  λ st, match m st with
        | (Next a, st') => k a st'
        | (Return r, st') => (Return r, st')
        end.

Notation "'do' x <- m ; k" := (bind m (λ x, k))
  (at level 20, x name, m at level 100, k at level 200).
Notation "m ;; k" := (bind m (λ _, k))
  (at level 100, k at level 200, right associativity).

(** [return r] in the middle of a view. *)
Definition return_ {A} (r : Response) : M A := λ st, (Return r, st).

(** An exception nothing in the view catches. *)
Definition raise {A} (e : exn) : M A := return_ (Raised e).

Definition run (m : M Response) (st : State) : Response * State :=
  match m st with
  | (Next r, st') => (r, st')
  | (Return r, st') => (r, st')
  end.

(** [flash(message, category)]: the notice is appended to the list under
    the session's [_flashes] key. *)
Definition flash (message category : string) : M unit :=
  λ st, (Next tt, with_flashes (flashes st ++ [(category, message)]) st).

(** [key in session] *)
Definition session_contains (key : string) : M bool :=
  λ st, (Next (bool_decide (is_Some (session st !! key))), st).

(** [session.get(key)] *)
Definition session_get (key : string) : M (option sval) :=
  λ st, (Next (session st !! key), st).

(** [session[key]] *)
Definition session_item (key : string) : M sval :=
  λ st, match session st !! key with
        | Some v => (Next v, st)
        | None => (Return (Raised (KeyError key)), st)
        end.

(** [session[key] = v] *)
Definition session_set (key : string) (v : sval) : M unit :=
  λ st, (Next tt, with_session (<[key := v]> (session st)) st).

(** [session.clear()]: every key goes, the queued notices with the rest. *)
Definition session_clear : M unit :=
  λ st, (Next tt, with_flashes [] (with_session ∅ st)).

(** [sqlite.query] with a reading statement. *)
Definition query {A} (q : Database → A) : M A :=
  λ st, (Next (q (db st)), st).

(** [sqlite.query] with an INSERT or UPDATE. *)
Definition execute (f : Database → Database) : M unit :=
  λ st, (Next tt, with_db (f (db st)) st).

(** [row[column]] on the result of a [one=True] query, which is [None] when
    no row matched. *)
Definition item {R A} (row : option R) (column : R → A) : M A :=
  match row with
  | Some r => ret (column r)
  | None => raise TypeError
  end.

(** [upload_dir.mkdir(parents=True, exist_ok=True)] *)
Definition mkdir : M unit :=
  λ st, (Next tt, with_uploaded (Some (default ∅ (uploaded st))) st).

(** [fileobj.save(upload_dir / name)] *)
Definition save (name : string) (fileobj : FileStorage.t) : M unit :=
  λ st, match uploaded st with
        | Some fs =>
            (Next tt, with_uploaded (Some (<[name := FileStorage.stream fileobj]> fs)) st)
        | None => (Return (Raised FileNotFoundError), st)
        end.

(** ** The SQL statements

    Modelled from the spec: the data-store gateway [sqlite.query] is not part
    of the source.  It executes one parameterized statement and returns the
    matching rows as mappings, the first of them (or [None]) with
    [one=True]; rows come in table order, a join pairs them left to right. *)

Module SQL.

(** [column = ?] for an id column and a parameter taken from the session. *)
Definition id_is (v : sval) (n : Z) : Prop := v = VInt n.

#[global] Instance id_is_dec v n : Decision (id_is v n).
Proof. unfold id_is. apply _. Defined.

(** [SELECT * FROM Users WHERE username = ?], [one=True] *)
Definition select_user_by_username (name : string) (d : Database) : option User.row :=
  head (filter (λ u, User.username u = name) (Users d)).

(** [SELECT * FROM Users WHERE id = ?], [one=True] *)
Definition select_user_by_id (v : sval) (d : Database) : option User.row :=
  head (filter (λ u, id_is v (User.id u)) (Users d)).

(** [INSERT INTO Users (username, first_name, last_name, password)
    VALUES (?, ?, ?, ?)] *)
Definition insert_user (defaults : Profile) (username first_name last_name password : string)
    (d : Database) : Database :=
  {| Users := Users d ++
       [ {| User.id := next_rowid (User.id <$> Users d);
            User.username := username;
            User.first_name := first_name;
            User.last_name := last_name;
            User.password := password;
            User.education := pr_education defaults;
            User.employment := pr_employment defaults;
            User.music := pr_music defaults;
            User.movie := pr_movie defaults;
            User.nationality := pr_nationality defaults;
            User.birthday := pr_birthday defaults |} ];
     Posts := Posts d; Comments := Comments d; Friends := Friends d |}.

(** [INSERT INTO Posts (u_id, content, image, creation_time)
    VALUES (?, ?, ?, CURRENT_TIMESTAMP)] *)
Definition insert_post (now u_id : Z) (content : string) (image : option string)
    (d : Database) : Database :=
  {| Users := Users d;
     Posts := Posts d ++
       [ {| Post.id := next_rowid (Post.id <$> Posts d);
            Post.u_id := u_id;
            Post.content := content;
            Post.image := image;
            Post.creation_time := now |} ];
     Comments := Comments d; Friends := Friends d |}.

(** [INSERT INTO Comments (p_id, u_id, comment, creation_time)
    VALUES (?, ?, ?, CURRENT_TIMESTAMP)] *)
Definition insert_comment (now p_id u_id : Z) (comment : string) (d : Database) : Database :=
  {| Users := Users d; Posts := Posts d;
     Comments := Comments d ++
       [ {| Comment.id := next_rowid (Comment.id <$> Comments d);
            Comment.p_id := p_id;
            Comment.u_id := u_id;
            Comment.comment := comment;
            Comment.creation_time := now |} ];
     Friends := Friends d |}.

(** [INSERT INTO Friends (u_id, f_id) VALUES (?, ?)] *)
Definition insert_friend (u_id f_id : Z) (d : Database) : Database :=
  {| Users := Users d; Posts := Posts d; Comments := Comments d;
     Friends := Friends d ++ [ {| Friend.u_id := u_id; Friend.f_id := f_id |} ] |}.

(** [UPDATE Users SET education = ?, employment = ?, music = ?, movie = ?,
    nationality = ?, birthday = ? WHERE id = ?] *)
Definition update_profile (p : Profile) (v : sval) (d : Database) : Database :=
  {| Users :=
       (λ u, if decide (id_is v (User.id u)) then
               {| User.id := User.id u;
                  User.username := User.username u;
                  User.first_name := User.first_name u;
                  User.last_name := User.last_name u;
                  User.password := User.password u;
                  User.education := pr_education p;
                  User.employment := pr_employment p;
                  User.music := pr_music p;
                  User.movie := pr_movie p;
                  User.nationality := pr_nationality p;
                  User.birthday := pr_birthday p |}
             else u) <$> Users d;
     Posts := Posts d; Comments := Comments d; Friends := Friends d |}.

(** [SELECT f_id FROM Friends WHERE u_id = ?] *)
Definition select_friend_ids (u_id : Z) (d : Database) : list Z :=
  Friend.f_id <$> filter (λ f, Friend.u_id f = u_id) (Friends d).

(** [SELECT * FROM Friends AS f JOIN Users AS u ON f.f_id = u.id
    WHERE f.u_id = ? AND f.f_id != ?] *)
Definition select_friends (u_id self : Z) (d : Database) : list (Friend.row * User.row) :=
  f ← Friends d;
  u ← Users d;
  if decide (Friend.f_id f = User.id u ∧ Friend.u_id f = u_id ∧ Friend.f_id f ≠ self)
  then [(f, u)] else [].

(** [(SELECT COUNT( * ) FROM Comments WHERE p_id = p.id)] *)
Definition comment_count (p : Post.row) (d : Database) : Z :=
  Z.of_nat (List.length (filter (λ c, Comment.p_id c = Post.id p) (Comments d))).

(** [ORDER BY creation_time DESC] on a list of rows. *)
Definition desc {A} (key : A → Z) : relation A := λ x y, key y ≤ key x.

#[global] Instance desc_dec {A} (key : A → Z) : RelDecision (desc key).
Proof. intros x y. unfold desc. apply _. Defined.

Definition order_by_desc {A} (key : A → Z) (rows : list A) : list A :=
  merge_sort (desc key) rows.

(** The [get_posts] statement of the stream view, with its three
    parameters. *)
Definition get_posts (a b c : Z) (d : Database) : list StreamRow :=
  order_by_desc (λ r, Post.creation_time (sr_post r))
    (p ← Posts d;
     u ← Users d;
     if decide (User.id u = Post.u_id p ∧
                (Post.u_id p ∈ (Friend.u_id <$> filter (λ f, Friend.f_id f = a) (Friends d)) ∨
                 Post.u_id p ∈ (Friend.f_id <$> filter (λ f, Friend.u_id f = b) (Friends d)) ∨
                 Post.u_id p = c))
     then [ {| sr_post := p; sr_user := u; sr_cc := comment_count p d |} ] else []).

(** [SELECT * FROM Posts AS p JOIN Users AS u ON p.u_id = u.id
    WHERE p.id = ?], [one=True] *)
Definition select_post (post_id : Z) (d : Database) : option (Post.row * User.row) :=
  head (p ← Posts d;
        u ← Users d;
        if decide (Post.u_id p = User.id u ∧ Post.id p = post_id) then [(p, u)] else []).

(** [SELECT DISTINCT * FROM Comments AS c JOIN Users AS u ON c.u_id = u.id
    WHERE c.p_id = ? ORDER BY c.creation_time DESC] *)
Definition select_comments (post_id : Z) (d : Database) : list (Comment.row * User.row) :=
  order_by_desc (λ r, Comment.creation_time (fst r))
    (remove_dups
       (c ← Comments d;
        u ← Users d;
        if decide (Comment.u_id c = User.id u ∧ Comment.p_id c = post_id)
        then [(c, u)] else [])).

End SQL.

(** ** The views *)

Section Routes.

(** [app.config] and [app.instance_path]. *)
Variable cfg : Config.

(** [werkzeug.utils.secure_filename], the sanitizer of submitted file
    names. *)
Variable secure_filename : string → string.

(** The values a fresh Users row gets in the columns the registration INSERT
    does not name. *)
Variable users_defaults : Profile.

(** [form.validate_on_submit()]: the request submits (POST is the only
    submitting method the routes accept) and the validators pass. *)
Definition validate_on_submit (m : method) (validate : bool) : bool :=
  bool_decide (m = POST) && validate.

(** The decorator of the session-gated routes. *)
Definition login_required {Args} (view : Args → M Response) : Args → M Response :=
  λ args,
    do present <- session_contains "user_id";
    if negb present then
      flash "Please sign in." "warning";;
      return_ (Redirect url_for_index)
    else view args.

Definition index (r : Request IndexForm.t) : M Response :=
  let index_form := req_form r in
  let login_form := IndexForm.login index_form in
  let register_form := IndexForm.register index_form in
  (if validate_on_submit (req_method r) (LoginForm.validate login_form)
      && LoginForm.submit login_form then
     do user <- query (SQL.select_user_by_username (LoginForm.username login_form));
     match user with
     | None => flash "Sorry, this user does not exist!" "warning"
     | Some user =>
         if decide (User.password user ≠ LoginForm.password login_form) then
           flash "Sorry, wrong password!" "warning"
         else if decide (User.password user = LoginForm.password login_form) then
           session_clear;;
           session_set "user_id" (VInt (User.id user));;
           session_set "username" (VStr (User.username user));;
           return_ (Redirect (url_for_stream (Some (VStr (User.username user)))))
         else ret tt
     end
   else if validate_on_submit (req_method r) (RegisterForm.validate register_form)
           && RegisterForm.submit register_form then
     execute (SQL.insert_user users_defaults
                (RegisterForm.username register_form)
                (RegisterForm.first_name register_form)
                (RegisterForm.last_name register_form)
                (RegisterForm.password register_form));;
     flash "User successfully created!" "success";;
     return_ (Redirect url_for_index)
   else ret tt);;
  ret (Render (index_html index_form)).

Definition logout : M Response :=
  session_clear;;
  flash "Logged out." "info";;
  ret (Redirect url_for_index).

Definition stream_view (r : Request PostForm.t) (username : string) : M Response :=
  do session_username <- session_get "username";
  do username <-
    (if decide (Some (VStr username) ≠ session_username) then
       if decide (req_method r = GET) then
         return_ (Redirect (url_for_stream session_username))
       else ret session_username
     else ret (Some (VStr username)));
  let post_form := req_form r in
  do session_user_id <- session_item "user_id";
  do user <- query (SQL.select_user_by_id session_user_id);
  (if validate_on_submit (req_method r) (PostForm.validate post_form) then
     do filename <-
       match PostForm.image post_form with
       | Some fileobj =>
           if negb (String.eqb (FileStorage.filename fileobj) "") then
             let raw := secure_filename (FileStorage.filename fileobj) in
             let ext := upload_ext raw in
             let allowed := allowed_extensions cfg in
             if decide (ext ∉ allowed) then
               flash "File type not allowed" "warning";;
               return_ (Redirect (url_for_stream username))
             else
               let unique := (token_hex r +:+ "_" +:+ raw)%string in
               mkdir;;
               save unique fileobj;;
               ret (Some unique)
           else ret None
       | None => ret None
       end;
     do user_id <- item user User.id;
     execute (SQL.insert_post (CURRENT_TIMESTAMP r) user_id
                (PostForm.content post_form) filename);;
     return_ (Redirect (url_for_stream username))
   else ret tt);;
  do user_id <- item user User.id;
  do posts <- query (SQL.get_posts user_id user_id user_id);
  ret (Render (stream_html username post_form posts)).

Definition stream (r : Request PostForm.t) : string → M Response :=
  login_required (stream_view r).

Definition comments_view (r : Request CommentsForm.t) (args : string * Z) : M Response :=
  let '(username, post_id) := args in
  do session_username <- session_get "username";
  do username <-
    (if decide (Some (VStr username) ≠ session_username) then
       if decide (req_method r = GET) then
         return_ (Redirect (url_for_comments session_username post_id))
       else ret session_username
     else ret (Some (VStr username)));
  let comments_form := req_form r in
  do session_user_id <- session_item "user_id";
  do user <- query (SQL.select_user_by_id session_user_id);
  (if validate_on_submit (req_method r) (CommentsForm.validate comments_form) then
     do user_id <- item user User.id;
     execute (SQL.insert_comment (CURRENT_TIMESTAMP r) post_id user_id
                (CommentsForm.comment comments_form))
   else ret tt);;
  do post <- query (SQL.select_post post_id);
  do comments <- query (SQL.select_comments post_id);
  ret (Render (comments_html username comments_form post comments)).

Definition comments (r : Request CommentsForm.t) (username : string) (post_id : Z)
    : M Response :=
  login_required (comments_view r) (username, post_id).

Definition friends_view (r : Request FriendsForm.t) (username : string) : M Response :=
  do session_username <- session_get "username";
  do username <-
    (if decide (Some (VStr username) ≠ session_username) then
       if decide (req_method r = GET) then
         return_ (Redirect (url_for_friends session_username))
       else ret session_username
     else ret (Some (VStr username)));
  let friends_form := req_form r in
  do session_user_id <- session_item "user_id";
  do user <- query (SQL.select_user_by_id session_user_id);
  (if validate_on_submit (req_method r) (FriendsForm.validate friends_form) then
     do friend <- query (SQL.select_user_by_username (FriendsForm.username friends_form));
     do user_id <- item user User.id;
     do friends <- query (SQL.select_friend_ids user_id);
     match friend with
     | None => flash "User does not exist!" "warning"
     | Some friend =>
         if decide (User.id friend = user_id) then
           flash "You cannot be friends with yourself!" "warning"
         else if decide (User.id friend ∈ friends) then
           flash "You are already friends with this user!" "warning"
         else
           execute (SQL.insert_friend user_id (User.id friend));;
           flash "Friend successfully added!" "success"
     end
   else ret tt);;
  do user_id <- item user User.id;
  do friends <- query (SQL.select_friends user_id user_id);
  ret (Render (friends_html username friends friends_form)).

Definition friends (r : Request FriendsForm.t) : string → M Response :=
  login_required (friends_view r).

Definition profile_view (r : Request ProfileForm.t) (username : string) : M Response :=
  do session_username <- session_get "username";
  do username <-
    (if decide (Some (VStr username) ≠ session_username) then
       if decide (req_method r = GET) then
         return_ (Redirect (url_for_profile session_username))
       else ret session_username
     else ret (Some (VStr username)));
  let profile_form := req_form r in
  do session_user_id <- session_item "user_id";
  do user <- query (SQL.select_user_by_id session_user_id);
  (if validate_on_submit (req_method r) (ProfileForm.validate profile_form) then
     do session_user_id <- session_item "user_id";
     execute (SQL.update_profile (ProfileForm.data profile_form) session_user_id);;
     return_ (Redirect (url_for_profile username))
   else ret tt);;
  ret (Render (profile_html username user profile_form)).

Definition profile (r : Request ProfileForm.t) : string → M Response :=
  login_required (profile_view r).

(** The extensions the serving route refuses whatever the allow-list is. *)
Definition active_content : list string := [".html"; ".htm"; ".js"]%string.

(** The name of the URL can be any text, so the case mapping applied to it,
    [str.lower], is a parameter. *)
Definition uploads (str_lower : string → string) (filename : string) : M Response :=
  let lower := str_lower filename in
  (if Str.endswith_any lower active_content then return_ (Abort 403) else ret tt);;
  let allowed := allowed_extensions cfg in
  let ext := serve_ext lower in
  (if decide (ext ∉ allowed) then return_ (Abort 403) else ret tt);;
  ret (SendFromDirectory (upload_dir cfg) filename).

End Routes.

(** ** Vocabulary of the properties *)

(** "[e] is the extension of [s]": what follows the last dot of [s], and the
    empty string when [s] has no dot. *)
Definition extension_of (s e : string) : Prop :=
  (Str.has_dot s = false ∧ e = ""%string) ∨
  (∃ stem, s = (stem +:+ "." +:+ e)%string ∧ Str.has_dot e = false).

(** "[s] ends in one of the active-content extensions". *)
Definition ends_in_active_content (s : string) : Prop :=
  ∃ stem, s = (stem +:+ ".html")%string ∨ s = (stem +:+ ".htm")%string ∨
          s = (stem +:+ ".js")%string.

(** The row the registration INSERT adds. *)
Definition registered (defaults : Profile) (f : RegisterForm.t) (d : Database) : User.row :=
  {| User.id := next_rowid (User.id <$> Users d);
     User.username := RegisterForm.username f;
     User.first_name := RegisterForm.first_name f;
     User.last_name := RegisterForm.last_name f;
     User.password := RegisterForm.password f;
     User.education := pr_education defaults;
     User.employment := pr_employment defaults;
     User.music := pr_music defaults;
     User.movie := pr_movie defaults;
     User.nationality := pr_nationality defaults;
     User.birthday := pr_birthday defaults |}.

(** The tests that select the branch of the index view. *)
Definition login_submitted (r : Request IndexForm.t) : bool :=
  validate_on_submit (req_method r) (LoginForm.validate (IndexForm.login (req_form r)))
  && LoginForm.submit (IndexForm.login (req_form r)).

Definition register_submitted (r : Request IndexForm.t) : bool :=
  negb (login_submitted r)
  && (validate_on_submit (req_method r)
        (RegisterForm.validate (IndexForm.register (req_form r)))
      && RegisterForm.submit (IndexForm.register (req_form r))).

(** The directed edge "[u] added [f]". *)
Definition edge (u f : Z) : Friend.row := {| Friend.u_id := u; Friend.f_id := f |}.



(** The keys of Flask's session object in a state: those of the map, and
    [_flashes] while notices are queued. *)
Definition session_keys (st : State) : gset string :=
  dom (session st) ∪ (if decide (flashes st = []) then ∅ else {["_flashes"]}).

(** The session the login branch leaves for a user. *)
Definition session_of (u : User.row) : gmap string sval :=
  <["username" := VStr (User.username u)]> (<["user_id" := VInt (User.id u)]> ∅).


(** A Users row with the six profile columns replaced, the other columns
    kept: what the UPDATE of the profile view makes of a row it selects. *)
Definition with_profile (p : Profile) (u : User.row) : User.row :=
  {| User.id := User.id u;
     User.username := User.username u;
     User.first_name := User.first_name u;
     User.last_name := User.last_name u;
     User.password := User.password u;
     User.education := pr_education p;
     User.employment := pr_employment p;
     User.music := pr_music p;
     User.movie := pr_movie p;
     User.nationality := pr_nationality p;
     User.birthday := pr_birthday p |}.

(** The columns of a Users row that the login branch reads. *)
Definition credentials (u : User.row) : Z * string * string :=
  (User.id u, User.username u, User.password u).

(** The Posts row the stream view inserts. *)
Definition posted (r : Request PostForm.t) (user : User.row) (image : option string)
    (d : Database) : Post.row :=
  {| Post.id := next_rowid (Post.id <$> Posts d);
     Post.u_id := User.id user;
     Post.content := PostForm.content (req_form r);
     Post.image := image;
     Post.creation_time := CURRENT_TIMESTAMP r |}.

(** The name a sanitized upload is stored under:
    [f"{secrets.token_hex(8)}_{raw}"]. *)
Definition stored_name (r : Request PostForm.t) (raw : string) : string :=
  (token_hex r +:+ "_" +:+ raw)%string.

(** The Comments row the comments view inserts. *)
Definition commented (r : Request CommentsForm.t) (post_id : Z) (user : User.row)
    (d : Database) : Comment.row :=
  {| Comment.id := next_rowid (Comment.id <$> Comments d);
     Comment.p_id := post_id;
     Comment.u_id := User.id user;
     Comment.comment := CommentsForm.comment (req_form r);
     Comment.creation_time := CURRENT_TIMESTAMP r |}.

(** "Newest first": no row of the list is younger than a row before it. *)
Definition newest_first {A} (time : A → Z) (l : list A) : Prop :=
  ∀ (i j : nat) (x y : A),
    (i < j)%nat → l !! i = Some x → l !! j = Some y → time y ≤ time x.

(** ** A sanitizer and a deployment to run the views on

    [sanitize] cleans an ASCII name the way the sanitizer of the framework
    does: path separators and white space become single underscores,
    characters other than letters, digits, [_], [.] and [-] are dropped, and
    dots and underscores are stripped from both ends. *)

Module Sample.

Definition is_space (c : ascii) : bool :=
  let n := N_of_ascii c in
  ((9 <=? n)%N && (n <=? 13)%N) || ((28 <=? n)%N && (n <=? 32)%N) || (n =? 47)%N.

Definition is_safe (c : ascii) : bool :=
  let n := N_of_ascii c in
  ((48 <=? n)%N && (n <=? 57)%N) || ((65 <=? n)%N && (n <=? 90)%N)
  || ((97 <=? n)%N && (n <=? 122)%N) || (n =? 95)%N || (n =? 46)%N || (n =? 45)%N.

Definition is_dot_or_underscore (c : ascii) : bool :=
  let n := N_of_ascii c in (n =? 46)%N || (n =? 95)%N.

(** Words separated by white space, joined by underscores. *)
Fixpoint join_words (pending started : bool) (l : list ascii) : list ascii :=
  match l with
  | [] => []
  | c :: r =>
      if is_space c then join_words started started r
      else (if pending then ["_"%char] else []) ++ c :: join_words false true r
  end.

Fixpoint lstrip (l : list ascii) : list ascii :=
  match l with
  | c :: r => if is_dot_or_underscore c then lstrip r else l
  | [] => []
  end.

Definition sanitize (name : string) : string :=
  let ascii_only := List.filter (λ c, (N_of_ascii c <? 128)%N) (list_ascii_of_string name) in
  let kept := List.filter is_safe (join_words false false ascii_only) in
  string_of_list_ascii (rev (lstrip (rev (lstrip kept)))).

Definition cfg : Config :=
  {| instance_path := "instance";
     UPLOADS_FOLDER_PATH := "uploads";
     ALLOWED_EXTENSIONS := Some {[ "png"; "jpg"; "jpeg"; "gif" ]}%string |}.

Definition defaults : Profile :=
  {| pr_education := Some "Unknown"; pr_employment := Some "Unknown";
     pr_music := Some "Unknown"; pr_movie := Some "Unknown";
     pr_nationality := Some "Unknown"; pr_birthday := Some "Unknown" |}%string.

Definition user (id : Z) (name password : string) : User.row :=
  {| User.id := id; User.username := name; User.first_name := name;
     User.last_name := name; User.password := password;
     User.education := None; User.employment := None; User.music := None;
     User.movie := None; User.nationality := None; User.birthday := None |}.

Definition alice : User.row := user 1 "alice" "wonderland".
Definition bob : User.row := user 2 "bob" "builder".

Definition post1 : Post.row :=
  {| Post.id := 1; Post.u_id := 1; Post.content := "hello"; Post.image := None;
     Post.creation_time := 10 |}.

Definition store : Database :=
  {| Users := [alice; bob]; Posts := [post1]; Comments := []; Friends := [] |}.

(** Nobody signed in. *)
Definition anonymous : State :=
  {| session := ∅; flashes := []; db := store; uploaded := None |}.

Definition signed_in (u : User.row) (d : Database) : State :=
  {| session := session_of u; flashes := []; db := d; uploaded := None |}.

Definition request {Form} (m : method) (f : Form) : Request Form :=
  {| req_method := m; req_form := f; CURRENT_TIMESTAMP := 20;
     token_hex := "00112233aabbccdd" |}.

End Sample.

(** Requests to run the views on. *)
Module Demo.

Definition no_login : LoginForm.t :=
  {| LoginForm.username := ""; LoginForm.password := "";
     LoginForm.submit := false; LoginForm.validate := false |}.

Definition no_register : RegisterForm.t :=
  {| RegisterForm.username := ""; RegisterForm.first_name := "";
     RegisterForm.last_name := ""; RegisterForm.password := "";
     RegisterForm.submit := false; RegisterForm.validate := false |}.

Definition log_in (name password : string) : Request IndexForm.t :=
  Sample.request POST
    {| IndexForm.login :=
         {| LoginForm.username := name; LoginForm.password := password;
            LoginForm.submit := true; LoginForm.validate := true |};
       IndexForm.register := no_register |}.

Definition sign_up (name password : string) : Request IndexForm.t :=
  Sample.request POST
    {| IndexForm.login := no_login;
       IndexForm.register :=
         {| RegisterForm.username := name; RegisterForm.first_name := name;
            RegisterForm.last_name := name; RegisterForm.password := password;
            RegisterForm.submit := true; RegisterForm.validate := true |} |}.

Definition open_stream : Request PostForm.t :=
  Sample.request GET
    {| PostForm.content := ""; PostForm.image := None; PostForm.validate := false |}.

Definition open_friends : Request FriendsForm.t :=
  Sample.request GET {| FriendsForm.username := ""; FriendsForm.validate := false |}.

Definition open_comments : Request CommentsForm.t :=
  Sample.request GET {| CommentsForm.comment := ""; CommentsForm.validate := false |}.

Definition open_profile : Request ProfileForm.t :=
  Sample.request GET {| ProfileForm.data := Sample.defaults; ProfileForm.validate := false |}.

Definition post (content : string) (image : option FileStorage.t) : Request PostForm.t :=
  Sample.request POST
    {| PostForm.content := content; PostForm.image := image; PostForm.validate := true |}.

Definition comment (text : string) : Request CommentsForm.t :=
  Sample.request POST {| CommentsForm.comment := text; CommentsForm.validate := true |}.

Definition befriend (name : string) : Request FriendsForm.t :=
  Sample.request POST {| FriendsForm.username := name; FriendsForm.validate := true |}.

Definition set_profile (p : Profile) : Request ProfileForm.t :=
  Sample.request POST {| ProfileForm.data := p; ProfileForm.validate := true |}.

Definition photo : FileStorage.t :=
  {| FileStorage.filename := "My Cat.PNG"; FileStorage.stream := "png-bytes" |}.

Definition carol_profile : Profile :=
  {| pr_education := Some "UiS"; pr_employment := None; pr_music := Some "jazz";
     pr_movie := None; pr_nationality := Some "NO"; pr_birthday := Some "2000-01-01" |}%string.

(** The compatibility normalisation (NFKD) that the sanitizer of the
    framework applies before its ASCII filter, as far as the full stop goes:
    the fullwidth full stop U+FF0E, bytes EF BC 8E, becomes an ASCII dot. *)
Fixpoint nfkd_full_stop (l : list ascii) : list ascii :=
  match l with
  | [] => []
  | a :: l1 =>
      match l1 with
      | b :: c :: l3 =>
          if ((N_of_ascii a =? 239) && (N_of_ascii b =? 188) && (N_of_ascii c =? 142))%N
          then "."%char :: nfkd_full_stop l3
          else a :: nfkd_full_stop l1
      | _ => a :: nfkd_full_stop l1
      end
  end.

(** The sanitizer with that normalisation in front. *)
Definition secure_filename (name : string) : string :=
  Sample.sanitize (string_of_list_ascii (nfkd_full_stop (list_ascii_of_string name))).

(** The name "cat", a fullwidth full stop, "png". *)
Definition fullwidth_name : string :=
  ("cat" +:+
   String (ascii_of_N 239) (String (ascii_of_N 188) (String (ascii_of_N 142) "png")))%string.

(** A session whose user id matches no Users row. *)
Definition stale : State :=
  {| session := <["username" := VStr "ghost"]> (<["user_id" := VInt 99]> ∅);
     flashes := []; db := Sample.store; uploaded := None |}.

End Demo.

(** * Properties *)

(** ** Strings *)

Section StrFacts.

Import Str.

Lemma endswith_refl s : endswith s s = true.
Proof. destruct s; cbn [endswith]; by rewrite String.eqb_refl. Qed.

(** [endswith] is "has this suffix". *)
Lemma endswith_spec s suf : endswith s suf = true ↔ ∃ p, s = (p +:+ suf)%string.
Proof.
  split.
  - induction s as [|c r IH]; cbn [endswith].
    + destruct (String.eqb_spec "" suf) as [<-|]; [|done]. by exists ""%string.
    + destruct (String.eqb_spec (String c r) suf) as [<-|_].
      * by exists ""%string.
      * intros [p ->]%IH. by exists (String c p).
  - intros [p ->]. induction p as [|c p IH]; cbn [endswith append].
    + apply endswith_refl.
    + change (String c p +:+ suf)%string with (String c (p +:+ suf)).
      cbn [endswith]. destruct (String.eqb (String c (p +:+ suf)) suf); [done|apply IH].
Qed.

Lemma append_cons c a b : (String c a +:+ b)%string = String c (a +:+ b).
Proof. reflexivity. Qed.

Lemma append_nil b : (""+:+ b)%string = b.
Proof. reflexivity. Qed.

Lemma lower_app a b : lower (a +:+ b) = (lower a +:+ lower b)%string.
Proof.
  induction a as [|c a IH]; [done|].
  rewrite append_cons. cbn [lower]. by rewrite IH.
Qed.

Lemma lower_ascii_dot c : Ascii.eqb (lower_ascii c) "." = Ascii.eqb c ".".
Proof. destruct c as [[] [] [] [] [] [] [] []]; reflexivity. Qed.

Lemma has_dot_lower s : has_dot (lower s) = has_dot s.
Proof.
  induction s as [|c r IH]; cbn [lower has_dot]; [done|].
  by rewrite lower_ascii_dot, IH.
Qed.

Lemma has_dot_app a b : has_dot (a +:+ b) = has_dot a || has_dot b.
Proof.
  induction a as [|c a IH]; [done|].
  rewrite append_cons. cbn [has_dot].
  destruct (Ascii.eqb c "."); [done|apply IH].
Qed.

Lemma rsplit_last_no_dot s : has_dot s = false → rsplit_last s = s.
Proof.
  destruct s as [|c r]; cbn [has_dot rsplit_last]; [done|].
  destruct (Ascii.eqb c "."); [done|]. by intros ->.
Qed.

Lemma rsplit_last_app stem e :
  has_dot e = false → rsplit_last (stem +:+ "." +:+ e) = e.
Proof.
  intros He. induction stem as [|c stem IH].
  - rewrite append_nil, append_cons, append_nil. cbn [rsplit_last]. by rewrite He.
  - rewrite append_cons. cbn [rsplit_last].
    rewrite has_dot_app, append_cons. cbn [has_dot]. simpl Ascii.eqb.
    by rewrite orb_true_r.
Qed.

Lemma rsplit_last_split s :
  has_dot s = true →
  ∃ stem, s = (stem +:+ "." +:+ rsplit_last s)%string ∧ has_dot (rsplit_last s) = false.
Proof.
  induction s as [|c r IH]; cbn [has_dot rsplit_last]; [done|].
  destruct (has_dot r) eqn:Hr.
  - intros _. destruct (IH eq_refl) as (stem & Hs & Hd).
    exists (String c stem). rewrite append_cons. by rewrite <- Hs.
  - destruct (Ascii.eqb_spec c ".") as [->|]; [|done].
    intros _. by exists ""%string.
Qed.

End StrFacts.

Lemma extension_of_serve_ext s e : extension_of s e ↔ e = serve_ext s.
Proof.
  unfold extension_of, serve_ext. split.
  - intros [[-> ->]|(stem & -> & He)]; [done|].
    rewrite rsplit_last_app by done.
    rewrite has_dot_app, append_cons. cbn [Str.has_dot]. simpl Ascii.eqb.
    by rewrite orb_true_r.
  - intros ->. destruct (Str.has_dot s) eqn:Hs; [right|by left].
    by apply rsplit_last_split.
Qed.

Lemma upload_ext_extension_of raw e :
  extension_of raw e → upload_ext raw = Str.lower e.
Proof.
  intros ->%extension_of_serve_ext. unfold upload_ext, serve_ext.
  by destruct (Str.has_dot raw).
Qed.

(** ** Running a view *)

Ltac unfold_monad :=
  unfold run, bind, ret, return_, raise, flash, session_contains, session_get,
    session_item, session_set, session_clear, query, execute, item, mkdir, save.

(** Reduce a view that has been unfolded, using the equations at hand to
    pick the branches. *)
Ltac mstep :=
  cbn;
  repeat (first [ rewrite decide_True by done
                | rewrite decide_False by done
                | match goal with H : _ = _ |- _ => rewrite H end ];
          cbn).

Lemma endswith_any_active s :
  Str.endswith_any s active_content = true ↔ ends_in_active_content s.
Proof.
  unfold Str.endswith_any, active_content, ends_in_active_content. cbn [existsb].
  rewrite orb_false_r, !orb_true_iff, !endswith_spec. split.
  - intros [[p ?]|[[p ?]|[p ?]]]; exists p; auto.
  - intros [p [?|[?|?]]]; eauto.
Qed.

(** The serving route never touches the state, and what it answers is
    decided by the two tests on the lowered name. *)
Lemma uploads_run cfg str_lower filename st :
  run (uploads cfg str_lower filename) st =
    (if Str.endswith_any (str_lower filename) active_content then Abort 403
     else if decide (serve_ext (str_lower filename) ∉ allowed_extensions cfg) then Abort 403
     else SendFromDirectory (upload_dir cfg) filename, st).
Proof.
  unfold uploads. unfold_monad.
  destruct (Str.endswith_any _ _); [done|]. by case_decide.
Qed.

(** ** The file-serving guard *)

(** C4: whatever the case mapping [str_lower] does to the requested name,
    the uploads route answers forbidden exactly when the lowered name ends in
    [.html], [.htm] or [.js] or its extension is outside the allow-list; a
    name whose lowered form ends in [.js] or [.html] is forbidden under every
    configuration; in every other case the answer is the file sent from the
    uploads directory under the name as requested.  The state is left as it
    was. *)
Theorem uploads_forbidden_iff
    (cfg : Config) (str_lower : string → string) (filename : string) (st : State) :
  let lower := str_lower filename in
  let forbidden :=
    ends_in_active_content lower ∨
    (∃ ext, extension_of lower ext ∧ ext ∉ allowed_extensions cfg) in
  (fst (run (uploads cfg str_lower filename) st) = Abort 403 ↔ forbidden) ∧
  (¬ forbidden →
     fst (run (uploads cfg str_lower filename) st) =
       SendFromDirectory (upload_dir cfg) filename) ∧
  snd (run (uploads cfg str_lower filename) st) = st ∧
  (∀ stem, lower = (stem +:+ ".js")%string ∨ lower = (stem +:+ ".html")%string →
     ∀ cfg', fst (run (uploads cfg' str_lower filename) st) = Abort 403).
Proof.
  intros lower forbidden.
  assert (Hf : forbidden ↔
            Str.endswith_any lower active_content = true ∨
            serve_ext lower ∉ allowed_extensions cfg).
  { unfold forbidden. rewrite endswith_any_active. split.
    - intros [?|(ext & ->%extension_of_serve_ext & ?)]; auto.
    - intros [?|?]; [by left|right]. exists (serve_ext lower).
      by rewrite extension_of_serve_ext. }
  split; [|split; [|split]].
  - rewrite uploads_run, Hf. fold lower. cbn [fst].
    destruct (Str.endswith_any lower active_content); [tauto|].
    case_decide; [tauto|]. split; [done|]. intros [?|?]; done.
  - rewrite Hf, uploads_run. fold lower. cbn [fst].
    destruct (Str.endswith_any lower active_content); [intros []; auto|].
    case_decide; [intros []; auto|done].
  - by rewrite uploads_run.
  - intros stem Hstem cfg'. rewrite uploads_run. fold lower. cbn [fst].
    assert (Str.endswith_any lower active_content = true) as ->; [|done].
    apply endswith_any_active. exists stem. tauto.
Qed.

(** A name ending in [.js] stays forbidden under a configuration that
    allows the extension [js]. *)
Example uploads_js_allowed_still_forbidden :
  let cfg := {| instance_path := "instance"; UPLOADS_FOLDER_PATH := "uploads";
                ALLOWED_EXTENSIONS := Some {[ "js"; "png" ]}%string |} in
  fst (run (uploads cfg Str.lower "Evil.JS") Sample.anonymous) = Abort 403 ∧
  fst (run (uploads cfg Str.lower "cat.PNG") Sample.anonymous) =
    SendFromDirectory "instance/uploads" "cat.PNG".
Proof. by vm_compute. Qed.

(** ** The session guard *)

Lemma login_required_absent {Args} (view : Args → M Response) (args : Args) (st : State) :
  session st !! "user_id" = None →
  run (login_required view args) st =
    (Redirect url_for_index,
     with_flashes (flashes st ++ [("warning", "Please sign in.")]%string) st).
Proof.
  intros H. unfold login_required. unfold_monad. by rewrite H.
Qed.

Lemma login_required_present {Args} (view : Args → M Response) (args : Args) (st : State) :
  is_Some (session st !! "user_id") →
  run (login_required view args) st = run (view args) st.
Proof.
  intros [v H]. unfold login_required. unfold_monad. by rewrite H.
Qed.

(** C2: without a [user_id] key in the session, each of the four gated
    routes flashes the warning and redirects to the index page.  The outcome
    is the same for any wrapped view, which is therefore not run, and the
    state after differs from the state before in the flash queue alone: the
    tables, the uploaded files and the session are as they were. *)
Theorem login_required_unauthenticated
    (cfg : Config) (secure_filename : string → string) (st : State) :
  session st !! "user_id" = None →
  let denied :=
    (Redirect url_for_index,
     with_flashes (flashes st ++ [("warning", "Please sign in.")]%string) st) in
  (∀ Args (view : Args → M Response) (args : Args),
     run (login_required view args) st = denied) ∧
  (∀ r username, run (stream cfg secure_filename r username) st = denied) ∧
  (∀ r username post_id, run (comments r username post_id) st = denied) ∧
  (∀ r username, run (friends r username) st = denied) ∧
  (∀ r username, run (profile r username) st = denied) ∧
  db (snd denied) = db st ∧
  uploaded (snd denied) = uploaded st ∧
  session (snd denied) = session st.
Proof.
  intros H denied. repeat split; intros;
    unfold stream, comments, friends, profile; by apply login_required_absent.
Qed.

Lemma login_required_unauthenticated_witness :
  session Sample.anonymous !! "user_id" = None ∧
  run (friends (Sample.request GET
                  {| FriendsForm.username := "bob"; FriendsForm.validate := false |})
         "alice") Sample.anonymous =
    (Redirect url_for_index,
     with_flashes [("warning", "Please sign in.")]%string Sample.anonymous).
Proof.
  split; [reflexivity|].
  apply (login_required_unauthenticated Sample.cfg Sample.sanitize Sample.anonymous).
  reflexivity.
Defined.

(** ** Uploads on the stream route *)

Lemma validate_on_submit_POST m v :
  validate_on_submit m v = true → m = POST ∧ v = true.
Proof.
  unfold validate_on_submit. intros [?%bool_decide_eq_true ?]%andb_true_iff. done.
Qed.

(** A valid submission with a named file whose extension fails the
    allow-list test: warning, redirect, and nothing but the flash queue
    changes. *)
Lemma stream_upload_rejected cfg secure_filename r username st fileobj :
  is_Some (session st !! "user_id") →
  validate_on_submit (req_method r) (PostForm.validate (req_form r)) = true →
  PostForm.image (req_form r) = Some fileobj →
  FileStorage.filename fileobj ≠ ""%string →
  upload_ext (secure_filename (FileStorage.filename fileobj)) ∉ allowed_extensions cfg →
  run (stream cfg secure_filename r username) st =
    (Redirect (url_for_stream (session st !! "username")),
     with_flashes (flashes st ++ [("warning", "File type not allowed")]%string) st).
Proof.
  intros Hin Hv Himg Hname Hext.
  unfold stream. rewrite login_required_present by done.
  destruct Hin as [uid Huid].
  destruct (validate_on_submit_POST _ _ Hv) as [Hm _].
  apply String.eqb_neq in Hname.
  rewrite Hm in Hv.
  unfold stream_view. unfold_monad. case_decide as Hu; by mstep.
Qed.

(** C3: a valid post submission by a signed-in user that attaches a named
    file whose sanitized, lowercased extension is not in the allow-list is
    answered with the warning "File type not allowed" and a redirect to the
    stream; no file is written and no Post row is inserted, so the text of
    the post is dropped with the image. *)
Theorem stream_disallowed_extension_discards_post
    (cfg : Config) (secure_filename : string → string)
    (r : Request PostForm.t) (username : string) (st : State)
    (fileobj : FileStorage.t) (ext : string) :
  is_Some (session st !! "user_id") →
  validate_on_submit (req_method r) (PostForm.validate (req_form r)) = true →
  PostForm.image (req_form r) = Some fileobj →
  FileStorage.filename fileobj ≠ ""%string →
  extension_of (secure_filename (FileStorage.filename fileobj)) ext →
  Str.lower ext ∉ allowed_extensions cfg →
  let '(response, st') := run (stream cfg secure_filename r username) st in
  response = Redirect (url_for_stream (session st !! "username")) ∧
  flashes st' = flashes st ++ [("warning", "File type not allowed")]%string ∧
  uploaded st' = uploaded st ∧
  Posts (db st') = Posts (db st) ∧
  db st' = db st ∧
  session st' = session st.
Proof.
  intros Hin Hv Himg Hname Hext Hnot.
  rewrite (stream_upload_rejected _ _ _ _ _ fileobj); try done.
  by rewrite (upload_ext_extension_of _ ext).
Qed.

Lemma stream_disallowed_extension_discards_post_witness :
  let r := Sample.request POST
             {| PostForm.content := "look at this";
                PostForm.image := Some {| FileStorage.filename := "../shell.PHP";
                                          FileStorage.stream := "<?php ?>" |};
                PostForm.validate := true |} in
  let st := Sample.signed_in Sample.alice Sample.store in
  let '(response, st') := run (stream Sample.cfg Sample.sanitize r "alice") st in
  response = Redirect (url_for_stream (Some (VStr "alice"))) ∧
  flashes st' = [("warning", "File type not allowed")]%string ∧
  uploaded st' = None ∧
  Posts (db st') = [Sample.post1] ∧
  db st' = Sample.store ∧
  session st' = session_of Sample.alice.
Proof.
  intros r st.
  apply (stream_disallowed_extension_discards_post Sample.cfg Sample.sanitize r "alice" st
           {| FileStorage.filename := "../shell.PHP"; FileStorage.stream := "<?php ?>" |}
           "PHP").
  - by exists (VInt 1).
  - reflexivity.
  - reflexivity.
  - discriminate.
  - right. by exists "shell"%string.
  - apply (bool_decide_unpack _). by vm_compute.
Defined.

(** ** Names without a dot *)

Lemma upload_ext_no_dot raw : Str.has_dot raw = false → upload_ext raw = ""%string.
Proof. unfold upload_ext. by intros ->. Qed.

Lemma serve_ext_no_dot filename :
  Str.has_dot filename = false → serve_ext (Str.lower filename) = ""%string.
Proof. unfold serve_ext. rewrite has_dot_lower. by intros ->. Qed.

(** The stream route writes to the uploads directory only on behalf of an
    attached file whose sanitized name passed the allow-list test. *)
Lemma stream_writes_only_allowed cfg secure_filename r username st :
  uploaded (snd (run (stream cfg secure_filename r username) st)) ≠ uploaded st →
  ∃ fileobj,
    PostForm.image (req_form r) = Some fileobj ∧
    upload_ext (secure_filename (FileStorage.filename fileobj)) ∈ allowed_extensions cfg.
Proof.
  unfold stream, login_required, stream_view. unfold_monad. cbn.
  destruct (session st !! "user_id") as [uid|] eqn:Huid; cbn; [|done].
  case_decide; [case_decide|]; cbn; try done; rewrite Huid; cbn;
    (destruct (validate_on_submit _ _); cbn;
     [|by destruct (SQL.select_user_by_id uid (db st))]);
    (destruct (PostForm.image (req_form r)) as [fileobj|]; cbn;
     [|by destruct (SQL.select_user_by_id uid (db st))]);
    (destruct (negb _); cbn;
     [|by destruct (SQL.select_user_by_id uid (db st))]);
    (case_decide as Hext; cbn; [done|]);
    intros _; exists fileobj; split; try done; by apply dec_stable.
Qed.

(** C9 (amended): when the empty string is not in the allow-list, a name
    without a dot has the empty extension and is refused on both sides, the
    name on the inbound side being the sanitized one, from which the stream
    view takes the extension.  The serving route, under a case mapping that
    neither adds nor removes a dot, answers forbidden for a dotless name of
    the URL; a valid post submission whose attached file has a dotless
    sanitized name gets the file-type warning and creates neither file nor
    Post; and the stream route never writes a file whose sanitized name has
    no dot. *)
Theorem dotless_names_refused (cfg : Config) (secure_filename : string → string) :
  ""%string ∉ allowed_extensions cfg →
  (∀ (str_lower : string → string) filename st,
     (∀ s, Str.has_dot (str_lower s) = Str.has_dot s) →
     Str.has_dot filename = false →
     serve_ext (str_lower filename) = ""%string ∧
     run (uploads cfg str_lower filename) st = (Abort 403, st)) ∧
  (∀ r username st fileobj,
     is_Some (session st !! "user_id") →
     validate_on_submit (req_method r) (PostForm.validate (req_form r)) = true →
     PostForm.image (req_form r) = Some fileobj →
     FileStorage.filename fileobj ≠ ""%string →
     Str.has_dot (secure_filename (FileStorage.filename fileobj)) = false →
     upload_ext (secure_filename (FileStorage.filename fileobj)) = ""%string ∧
     run (stream cfg secure_filename r username) st =
       (Redirect (url_for_stream (session st !! "username")),
        with_flashes (flashes st ++ [("warning", "File type not allowed")]%string) st)) ∧
  (∀ r username st,
     uploaded (snd (run (stream cfg secure_filename r username) st)) ≠ uploaded st →
     ∃ fileobj,
       PostForm.image (req_form r) = Some fileobj ∧
       Str.has_dot (secure_filename (FileStorage.filename fileobj)) = true).
Proof.
  intros Hempty. split; [|split].
  - intros str_lower filename st Hdots Hdot.
    assert (Hext : serve_ext (str_lower filename) = ""%string).
    { unfold serve_ext. by rewrite Hdots, Hdot. }
    split; [done|]. rewrite uploads_run, Hext.
    destruct (Str.endswith_any _ _); [done|]. by rewrite decide_True.
  - intros r username st fileobj Hin Hv Himg Hname Hdot.
    split; [by apply upload_ext_no_dot|].
    apply (stream_upload_rejected _ _ _ _ _ fileobj); try done.
    by rewrite upload_ext_no_dot.
  - intros r username st [fileobj [Himg Hin]]%stream_writes_only_allowed.
    exists fileobj. split; [done|].
    destruct (Str.has_dot (secure_filename (FileStorage.filename fileobj))) eqn:Hdot; [done|].
    by rewrite upload_ext_no_dot in Hin.
Qed.

Lemma dotless_names_refused_witness :
  let fileobj := {| FileStorage.filename := "Makefile"; FileStorage.stream := "all:" |} in
  let r := Sample.request POST
             {| PostForm.content := "build it"; PostForm.image := Some fileobj;
                PostForm.validate := true |} in
  let st := Sample.signed_in Sample.alice Sample.store in
  (""%string ∉ allowed_extensions Sample.cfg) ∧
  run (uploads Sample.cfg Str.lower "README") Sample.anonymous =
    (Abort 403, Sample.anonymous) ∧
  run (stream Sample.cfg Sample.sanitize r "alice") st =
    (Redirect (url_for_stream (Some (VStr "alice"))),
     with_flashes [("warning", "File type not allowed")]%string st).
Proof.
  intros fileobj r st.
  assert (H : ""%string ∉ allowed_extensions Sample.cfg).
  { apply (bool_decide_unpack _). by vm_compute. }
  destruct (dotless_names_refused Sample.cfg Sample.sanitize H) as (Hserve & Hstore & _).
  split; [exact H|]. split.
  - by apply (Hserve Str.lower "README" Sample.anonymous has_dot_lower).
  - apply (Hstore r "alice" st fileobj); try reflexivity.
    + by exists (VInt 1).
    + discriminate.
Defined.

(** C9 as stated fails on the inbound side: the submitted name need not keep
    its shape through the sanitizer.  A name written with the fullwidth full
    stop has no dot; the sanitizer's compatibility normalisation turns that
    character into a dot, the extension read off the sanitized name is [png],
    and the file is stored and the Post created without a warning, the empty
    extension being outside the allow-list all the while. *)
Lemma dotless_names_refused_counterexample :
  let fileobj := {| FileStorage.filename := Demo.fullwidth_name;
                    FileStorage.stream := "png-bytes" |} in
  let r := Demo.post "my cat" (Some fileobj) in
  let st := Sample.signed_in Sample.alice Sample.store in
  let '(response, st') := run (stream Sample.cfg Demo.secure_filename r "alice") st in
  Str.has_dot (FileStorage.filename fileobj) = false ∧
  (""%string ∉ allowed_extensions Sample.cfg) ∧
  Demo.secure_filename (FileStorage.filename fileobj) = "cat.png"%string ∧
  response = Redirect (url_for_stream (Some (VStr "alice"))) ∧
  flashes st' = [] ∧
  (∃ files, uploaded st' = Some files ∧
            files !! "00112233aabbccdd_cat.png" = Some "png-bytes"%string) ∧
  Post.image <$> Posts (db st') = [None; Some "00112233aabbccdd_cat.png"%string].
Proof.
  cbv zeta.
  destruct (run (stream Sample.cfg Demo.secure_filename
                   (Demo.post "my cat"
                      (Some {| FileStorage.filename := Demo.fullwidth_name;
                               FileStorage.stream := "png-bytes" |})) "alice")
                (Sample.signed_in Sample.alice Sample.store))
    as [response st'] eqn:Hrun.
  vm_compute in Hrun. injection Hrun as <- <-.
  split; [reflexivity|]. split; [apply (bool_decide_unpack _); by vm_compute|].
  split; [reflexivity|]. split; [reflexivity|]. split; [reflexivity|].
  split; [|reflexivity]. eexists. split; [reflexivity|]. reflexivity.
Qed.

(** ** The username of the URL against the username of the session *)

Section Canonical.

Variable cfg : Config.
Variable secure_filename : string → string.
Variable st : State.
Variables url_username session_username : string.

Hypothesis signed_in : is_Some (session st !! "user_id").
Hypothesis session_name : session st !! "username" = Some (VStr session_username).
Hypothesis mismatch : url_username ≠ session_username.












End Canonical.

(** ** Comments *)

Lemma list_bind_empty {A B} (f : A → list B) (l : list A) :
  (∀ x, x ∈ l → f x = []) → l ≫= f = [].
Proof.
  induction l as [|x l IH]; intros Hf; [done|].
  cbn. rewrite (Hf x) by (by left). apply IH. intros y Hy. apply Hf. by right.
Qed.

Lemma select_post_absent post_id d :
  (∀ p, p ∈ Posts d → Post.id p ≠ post_id) → SQL.select_post post_id d = None.
Proof.
  unfold SQL.select_post. intros Hno. rewrite list_bind_empty; [done|].
  intros p Hp. apply list_bind_empty. intros u _.
  rewrite decide_False; [done|]. intros [_ ?]. by apply (Hno p).
Qed.

Lemma comments_submission r username post_id st uid user :
  session st !! "user_id" = Some uid →
  SQL.select_user_by_id uid (db st) = Some user →
  validate_on_submit (req_method r) (CommentsForm.validate (req_form r)) = true →
  let d' := SQL.insert_comment (CURRENT_TIMESTAMP r) post_id (User.id user)
              (CommentsForm.comment (req_form r)) (db st) in
  run (comments r username post_id) st =
    (Render (comments_html (session st !! "username") (req_form r)
               (SQL.select_post post_id d') (SQL.select_comments post_id d')),
     with_db d' st).
Proof.
  intros Huid Huser Hv d'.
  destruct (validate_on_submit_POST _ _ Hv) as [Hm _]. rewrite Hm in Hv.
  unfold comments. rewrite login_required_present by done.
  unfold comments_view. unfold_monad. case_decide as Hu; by mstep.
Qed.

(** C8: a valid comment submission by a signed-in user whose row exists
    appends one Comment row that references the post id of the URL, whether
    or not a Post with that id exists; the page is then rendered, and when no
    Post has that id the page gets no post ([None]) and no error is
    raised. *)
Theorem comments_insert_unchecked
    (r : Request CommentsForm.t) (username : string) (post_id : Z) (st : State)
    (uid : sval) (user : User.row) :
  session st !! "user_id" = Some uid →
  SQL.select_user_by_id uid (db st) = Some user →
  validate_on_submit (req_method r) (CommentsForm.validate (req_form r)) = true →
  let '(response, st') := run (comments r username post_id) st in
  Comments (db st') =
    Comments (db st) ++
      [ {| Comment.id := next_rowid (Comment.id <$> Comments (db st));
           Comment.p_id := post_id;
           Comment.u_id := User.id user;
           Comment.comment := CommentsForm.comment (req_form r);
           Comment.creation_time := CURRENT_TIMESTAMP r |} ] ∧
  Posts (db st') = Posts (db st) ∧
  (∃ post comments,
     response = Render (comments_html (session st !! "username") (req_form r)
                          post comments) ∧
     post = SQL.select_post post_id (db st') ∧
     ((∀ p, p ∈ Posts (db st) → Post.id p ≠ post_id) → post = None)).
Proof.
  intros Huid Huser Hv.
  rewrite (comments_submission _ _ _ _ uid user) by done.
  repeat split. eexists _, _. repeat split.
  intros Hno. by apply select_post_absent.
Qed.

Lemma comments_insert_unchecked_witness :
  let r := Sample.request POST
             {| CommentsForm.comment := "into the void"; CommentsForm.validate := true |} in
  let st := Sample.signed_in Sample.alice Sample.store in
  let '(response, st') := run (comments r "alice" 99) st in
  Comments (db st') =
    [ {| Comment.id := 1; Comment.p_id := 99; Comment.u_id := 1;
         Comment.comment := "into the void"; Comment.creation_time := 20 |} ] ∧
  ∃ comments,
    response = Render (comments_html (Some (VStr "alice")) (req_form r) None comments).
Proof.
  intros r st.
  pose proof (comments_insert_unchecked r "alice" 99 st (VInt 1) Sample.alice
                eq_refl eq_refl eq_refl) as H.
  destruct (run (comments r "alice" 99) st) as [response st'].
  destruct H as (Hc & _ & post & comments & -> & _ & Hnone).
  split; [by rewrite Hc|].
  exists comments. rewrite Hnone; [done|].
  intros p [->|[]%elem_of_nil]%elem_of_cons. discriminate.
Defined.

(** ** Registration and login *)

Lemma foldr_max_ge (x : Z) (l : list Z) :
  x ≤ foldr Z.max x l ∧ ∀ y, y ∈ l → y ≤ foldr Z.max x l.
Proof.
  induction l as [|a l [IH1 IH2]]; cbn.
  - split; [lia|]. by intros y ?%elem_of_nil.
  - split; [lia|]. intros y [->|Hy]%elem_of_cons; [lia|].
    specialize (IH2 y Hy). lia.
Qed.

(** The id the store hands out is not one of the ids in use. *)
Lemma next_rowid_fresh (ids : list Z) : next_rowid ids ∉ ids.
Proof.
  destruct ids as [|x l]; [by intros ?%elem_of_nil|].
  unfold next_rowid. destruct (foldr_max_ge x l) as [H1 H2].
  intros [Heq|Hin]%elem_of_cons; [lia|]. specialize (H2 _ Hin). lia.
Qed.

Lemma index_register defaults r st :
  register_submitted r = true →
  run (index defaults r) st =
    (Redirect url_for_index,
     with_flashes (flashes st ++ [("success", "User successfully created!")]%string)
       (with_db
          {| Users := Users (db st) ++
               [registered defaults (IndexForm.register (req_form r)) (db st)];
             Posts := Posts (db st); Comments := Comments (db st);
             Friends := Friends (db st) |}
          st)).
Proof.
  unfold register_submitted, login_submitted.
  intros [Hl%negb_true_iff Hr]%andb_true_iff.
  unfold index. unfold_monad. by rewrite Hl, Hr.
Qed.

Lemma index_login_success defaults r st user :
  login_submitted r = true →
  SQL.select_user_by_username (LoginForm.username (IndexForm.login (req_form r))) (db st)
    = Some user →
  User.password user = LoginForm.password (IndexForm.login (req_form r)) →
  run (index defaults r) st =
    (Redirect (url_for_stream (Some (VStr (User.username user)))),
     with_flashes []
       (with_session
          (<["username" := VStr (User.username user)]>
             (<["user_id" := VInt (User.id user)]> ∅)) st)).
Proof.
  unfold login_submitted. intros Hl Huser Hpw.
  unfold index. unfold_monad. rewrite Hl. cbn. rewrite Huser. cbn.
  rewrite decide_False by (by intros ?). by rewrite decide_True.
Qed.

(** Outside the login branch the index view leaves the session alone. *)
Lemma index_session_frame defaults r st :
  login_submitted r = false →
  session (snd (run (index defaults r) st)) = session st.
Proof.
  unfold login_submitted. intros Hl.
  unfold index. unfold_monad. rewrite Hl.
  by destruct (validate_on_submit _ (RegisterForm.validate _) && _).
Qed.

Lemma select_user_by_username_fresh name u d users :
  Users d = users ++ [u] →
  (∀ v, v ∈ users → User.username v ≠ name) →
  User.username u = name →
  SQL.select_user_by_username name d = Some u.
Proof.
  unfold SQL.select_user_by_username. intros -> Hfree Hname.
  rewrite filter_app.
  assert (filter (λ v, User.username v = name) users = []) as ->.
  { induction users as [|v vs IH]; [done|].
    rewrite filter_cons_False by (apply Hfree; by left).
    apply IH. intros w Hw. apply Hfree. by right. }
  by rewrite filter_cons_True.
Qed.

Lemma session_keys_flashed st notice :
  session_keys (with_flashes (flashes st ++ [notice]) st) = session_keys st ∪ {["_flashes"]}.
Proof.
  unfold session_keys. cbn.
  rewrite decide_False by (by destruct (flashes st)).
  case_decide.
  - by rewrite (right_id_L ∅ (∪)).
  - by rewrite <- (assoc_L (∪)), (idemp_L (∪)).
Qed.

(** C10 (amended): the registration branch of the index view inserts the
    row, queues the success notice and redirects, and leaves the sign-in keys
    of the session as they were.  The map of the session's keys other than
    [_flashes] is unchanged: a session without [user_id] or [username] still
    has neither, and a session that carries the id of an existing user does
    not carry the id of the new row, so the new user is not signed in.  The
    one change to the session is the notice appended under [_flashes], a key
    the session holds afterwards whether or not it did before.  Whenever the
    index view changes a key other than [_flashes], it ran the login
    branch. *)
Theorem registration_keeps_session
    (defaults : Profile) (r : Request IndexForm.t) (st : State) :
  register_submitted r = true →
  let '(response, st') := run (index defaults r) st in
  let new_user := registered defaults (IndexForm.register (req_form r)) (db st) in
  response = Redirect url_for_index ∧
  Users (db st') = Users (db st) ++ [new_user] ∧
  session st' = session st ∧
  flashes st' = flashes st ++ [("success", "User successfully created!")]%string ∧
  session_keys st' = session_keys st ∪ {["_flashes"]} ∧
  (session st !! "user_id" = None → session st' !! "user_id" = None) ∧
  (session st !! "username" = None → session st' !! "username" = None) ∧
  (∀ k, session st !! "user_id" = Some (VInt k) →
        k ∈ (User.id <$> Users (db st)) →
        session st' !! "user_id" ≠ Some (VInt (User.id new_user))) ∧
  (∀ r0 st0, session (snd (run (index defaults r0) st0)) ≠ session st0 →
             login_submitted r0 = true).
Proof.
  intros Hr. rewrite index_register by done.
  do 4 (split; [done|]).
  split; [apply (session_keys_flashed (with_db _ st))|].
  do 2 (split; [done|]). split.
  - intros k Hk Hin. cbn. rewrite Hk. intros [= ->].
    by apply (next_rowid_fresh (User.id <$> Users (db st))).
  - intros r0 st0 Hne. destruct (login_submitted r0) eqn:Hl; [done|].
    by rewrite index_session_frame in Hne.
Qed.

Lemma registration_keeps_session_witness :
  let r := Sample.request POST
             {| IndexForm.login :=
                  {| LoginForm.username := ""; LoginForm.password := "";
                     LoginForm.submit := false; LoginForm.validate := false |};
                IndexForm.register :=
                  {| RegisterForm.username := "carol"; RegisterForm.first_name := "Carol";
                     RegisterForm.last_name := "Danvers"; RegisterForm.password := "marvel";
                     RegisterForm.submit := true; RegisterForm.validate := true |} |} in
  register_submitted r = true ∧
  let '(response, st') := run (index Sample.defaults r) Sample.anonymous in
  response = Redirect url_for_index ∧
  session st' = ∅ ∧
  session st' !! "user_id" = None ∧
  flashes st' = [("success", "User successfully created!")]%string.
Proof.
  intros r. split; [reflexivity|].
  pose proof (registration_keeps_session Sample.defaults r Sample.anonymous eq_refl) as H.
  destruct (run (index Sample.defaults r) Sample.anonymous) as [response st'].
  destruct H as (H1 & _ & H2 & H4 & _ & H3 & _).
  split; [exact H1|]. split; [exact H2|]. split; [by apply H3|exact H4].
Defined.

(** C10 as stated fails: the session does not hold exactly the keys it held
    before.  An empty session has no key; the registration branch queues its
    notice with [flash], and the session it leaves holds the key [_flashes],
    though neither [user_id] nor [username]. *)
Lemma registration_keeps_session_counterexample :
  let st' := snd (run (index Sample.defaults (Demo.sign_up "carol" "marvel"))
                      Sample.anonymous) in
  register_submitted (Demo.sign_up "carol" "marvel") = true ∧
  session_keys Sample.anonymous = ∅ ∧
  session_keys st' = {["_flashes"]} ∧
  session_keys st' ≠ session_keys Sample.anonymous ∧
  ("user_id" ∉ session_keys st') ∧
  ("username" ∉ session_keys st').
Proof.
  cbv zeta.
  split; [reflexivity|]. split; [by vm_compute|]. split; [by vm_compute|].
  split; [|split; apply (bool_decide_unpack _); by vm_compute].
  intros Heq.
  apply (f_equal (λ keys : gset string, bool_decide ("_flashes" ∈ keys))) in Heq.
  vm_compute in Heq. discriminate Heq.
Qed.

(** C1 (amended): registration followed by a login with the same username
    and password signs the new user in, provided no earlier Users row
    carries that username.  The login may come from any session: whatever
    keys and queued notices it held are dropped, the session afterwards
    holds exactly the id of the new row and its username, and the answer is
    the redirect to that user's stream. *)
Theorem register_then_login
    (defaults : Profile) (reg log : Request IndexForm.t) (st : State)
    (s : gmap string sval) (fl : list (string * string)) (up : option (gmap string string)) :
  register_submitted reg = true →
  (∀ u, u ∈ Users (db st) →
        User.username u ≠ RegisterForm.username (IndexForm.register (req_form reg))) →
  login_submitted log = true →
  LoginForm.username (IndexForm.login (req_form log)) =
    RegisterForm.username (IndexForm.register (req_form reg)) →
  LoginForm.password (IndexForm.login (req_form log)) =
    RegisterForm.password (IndexForm.register (req_form reg)) →
  let new_user := registered defaults (IndexForm.register (req_form reg)) (db st) in
  let d := db (snd (run (index defaults reg) st)) in
  Users d = Users (db st) ++ [new_user] ∧
  (User.id new_user ∉ (User.id <$> Users (db st))) ∧
  run (index defaults log) {| session := s; flashes := fl; db := d; uploaded := up |} =
    (Redirect (url_for_stream (Some (VStr (User.username new_user)))),
     {| session := <["username" := VStr (User.username new_user)]>
                     (<["user_id" := VInt (User.id new_user)]> ∅);
        flashes := []; db := d; uploaded := up |}).
Proof.
  intros Hr Hfree Hl Hname Hpw new_user d.
  assert (Hd : Users d = Users (db st) ++ [new_user]).
  { unfold d. by rewrite index_register. }
  split; [done|]. split; [apply next_rowid_fresh|].
  rewrite (index_login_success _ _ _ new_user); try done.
  cbn. rewrite Hname.
  by apply (select_user_by_username_fresh _ _ _ (Users (db st))).
Qed.

Lemma register_then_login_witness :
  let reg := Sample.request POST
               {| IndexForm.login :=
                    {| LoginForm.username := ""; LoginForm.password := "";
                       LoginForm.submit := false; LoginForm.validate := false |};
                  IndexForm.register :=
                    {| RegisterForm.username := "carol"; RegisterForm.first_name := "Carol";
                       RegisterForm.last_name := "Danvers"; RegisterForm.password := "marvel";
                       RegisterForm.submit := true; RegisterForm.validate := true |} |} in
  let log := Sample.request POST
               {| IndexForm.login :=
                    {| LoginForm.username := "carol"; LoginForm.password := "marvel";
                       LoginForm.submit := true; LoginForm.validate := true |};
                  IndexForm.register :=
                    {| RegisterForm.username := ""; RegisterForm.first_name := "";
                       RegisterForm.last_name := ""; RegisterForm.password := "";
                       RegisterForm.submit := false; RegisterForm.validate := false |} |} in
  let st1 := snd (run (index Sample.defaults reg) Sample.anonymous) in
  run (index Sample.defaults log)
      {| session := session_of Sample.bob; flashes := []; db := db st1;
         uploaded := None |} =
    (Redirect (url_for_stream (Some (VStr "carol"))),
     {| session := <["username" := VStr "carol"]> (<["user_id" := VInt 3]> ∅);
        flashes := []; db := db st1; uploaded := None |}).
Proof.
  intros reg log st1.
  apply (register_then_login Sample.defaults reg log Sample.anonymous
           (session_of Sample.bob) [] None); try reflexivity.
  intros u Hu. cbn in Hu.
  apply elem_of_cons in Hu as [->|Hu]; [discriminate|].
  apply elem_of_cons in Hu as [->|Hu]; [discriminate|].
  by apply elem_of_nil in Hu.
Defined.

(** C1 as stated fails when the username is already taken: the index view
    registers a second "alice" with another password without complaint, and
    the login with the credentials just registered finds the older row
    first and is turned away with the wrong-password warning, leaving the
    session without a user. *)
Lemma register_then_login_counterexample :
  let reg := Sample.request POST
               {| IndexForm.login :=
                    {| LoginForm.username := ""; LoginForm.password := "";
                       LoginForm.submit := false; LoginForm.validate := false |};
                  IndexForm.register :=
                    {| RegisterForm.username := "alice"; RegisterForm.first_name := "Alice";
                       RegisterForm.last_name := "Liddell"; RegisterForm.password := "rabbit";
                       RegisterForm.submit := true; RegisterForm.validate := true |} |} in
  let log := Sample.request POST
               {| IndexForm.login :=
                    {| LoginForm.username := "alice"; LoginForm.password := "rabbit";
                       LoginForm.submit := true; LoginForm.validate := true |};
                  IndexForm.register :=
                    {| RegisterForm.username := ""; RegisterForm.first_name := "";
                       RegisterForm.last_name := ""; RegisterForm.password := "";
                       RegisterForm.submit := false; RegisterForm.validate := false |} |} in
  let st1 := snd (run (index Sample.defaults reg) Sample.anonymous) in
  let '(response, st2) := run (index Sample.defaults log) st1 in
  register_submitted reg = true ∧
  Users (db st1) =
    [Sample.alice; Sample.bob;
     registered Sample.defaults (IndexForm.register (req_form reg)) Sample.store] ∧
  login_submitted log = true ∧
  response = Render (index_html (req_form log)) ∧
  flashes st2 = [("success", "User successfully created!");
                 ("warning", "Sorry, wrong password!")]%string ∧
  session st2 !! "user_id" = None.
Proof. by vm_compute. Qed.

(** ** Friends *)

Lemma elem_of_select_friend_ids u f d :
  f ∈ SQL.select_friend_ids u d ↔ edge u f ∈ Friends d.
Proof.
  unfold SQL.select_friend_ids. rewrite list_elem_of_fmap. split.
  - intros ([u' f'] & -> & [Hu ?]%list_elem_of_filter). cbn in *. by subst.
  - intros H. exists (edge u f). split; [done|]. by apply list_elem_of_filter.
Qed.







(** ** Who sees whom *)

Lemma session_of_user_id u : session_of u !! "user_id" = Some (VInt (User.id u)).
Proof. unfold session_of. by rewrite lookup_insert_ne, lookup_insert_eq. Qed.

Lemma session_of_username u : session_of u !! "username" = Some (VStr (User.username u)).
Proof. unfold session_of. by rewrite lookup_insert_eq. Qed.

Lemma head_filter_Some {A} (P : A → Prop) `{∀ x, Decision (P x)} (l : list A) (x : A) :
  head (filter P l) = Some x → x ∈ l ∧ P x.
Proof.
  intros Hx. assert (Hf : x ∈ filter P l).
  { destruct (filter P l) as [|y l']; [done|]. injection Hx as ->. by left. }
  apply list_elem_of_filter in Hf. tauto.
Qed.

Lemma head_filter_is_Some {A} (P : A → Prop) `{∀ x, Decision (P x)} (l : list A) (x : A) :
  x ∈ l → P x → ∃ y, head (filter P l) = Some y.
Proof.
  intros Hin HP. assert (Hf : x ∈ filter P l) by (by apply list_elem_of_filter).
  destruct (filter P l) as [|y l']; [by apply elem_of_nil in Hf|]. by exists y.
Qed.

Lemma select_user_by_id_Some v d u :
  SQL.select_user_by_id v d = Some u → u ∈ Users d ∧ v = VInt (User.id u).
Proof. apply (head_filter_Some (λ w, SQL.id_is v (User.id w))). Qed.

Lemma select_user_by_username_Some name d u :
  SQL.select_user_by_username name d = Some u → u ∈ Users d ∧ User.username u = name.
Proof. apply (head_filter_Some (λ w, User.username w = name)). Qed.

Lemma select_user_by_id_elem d u :
  u ∈ Users d →
  ∃ u', SQL.select_user_by_id (VInt (User.id u)) d = Some u' ∧ User.id u' = User.id u.
Proof.
  intros Hin. unfold SQL.select_user_by_id.
  destruct (head_filter_is_Some (λ w, SQL.id_is (VInt (User.id u)) (User.id w))
              (Users d) u Hin eq_refl) as [u' Hu'].
  exists u'. split; [done|].
  apply head_filter_Some in Hu' as [_ Hid]. unfold SQL.id_is in Hid. congruence.
Qed.

(** The friends list of [u]: the edges that start at [u], loops apart, each
    with the row of the user it points to. *)
Lemma elem_of_select_friends u d (f : Friend.row) (usr : User.row) :
  (f, usr) ∈ SQL.select_friends u u d ↔
  f ∈ Friends d ∧ usr ∈ Users d ∧ Friend.f_id f = User.id usr ∧
  Friend.u_id f = u ∧ Friend.f_id f ≠ u.
Proof.
  unfold SQL.select_friends. rewrite list_elem_of_bind. split.
  - intros (f' & (u' & Hrow & Hu')%list_elem_of_bind & Hf').
    case_decide as Hc; [|by apply elem_of_nil in Hrow].
    apply list_elem_of_singleton in Hrow as [= -> ->]. tauto.
  - intros (Hf & Hu & Hc). exists f. split; [|done].
    apply list_elem_of_bind. exists usr. split; [|done].
    rewrite decide_True by tauto. by left.
Qed.

Lemma elem_of_sources a d x :
  x ∈ (Friend.u_id <$> filter (λ f, Friend.f_id f = a) (Friends d)) ↔ edge x a ∈ Friends d.
Proof.
  rewrite list_elem_of_fmap. split.
  - intros ([u' f'] & -> & [Hu ?]%list_elem_of_filter). cbn in *. by subst.
  - intros H. exists (edge x a). split; [done|]. by apply list_elem_of_filter.
Qed.

Lemma elem_of_targets b d x :
  x ∈ (Friend.f_id <$> filter (λ f, Friend.u_id f = b) (Friends d)) ↔ edge b x ∈ Friends d.
Proof. apply elem_of_select_friend_ids. Qed.

(** The stream of [b]: the posts, each with its author's row and comment
    count, whose author is [b] or is joined to [b] by an edge in either
    direction. *)
Lemma elem_of_get_posts b d (row : StreamRow) :
  row ∈ SQL.get_posts b b b d ↔
  sr_post row ∈ Posts d ∧ sr_user row ∈ Users d ∧
  sr_cc row = SQL.comment_count (sr_post row) d ∧
  User.id (sr_user row) = Post.u_id (sr_post row) ∧
  (edge (Post.u_id (sr_post row)) b ∈ Friends d ∨
   edge b (Post.u_id (sr_post row)) ∈ Friends d ∨
   Post.u_id (sr_post row) = b).
Proof.
  unfold SQL.get_posts, SQL.order_by_desc.
  rewrite merge_sort_Permutation, list_elem_of_bind. split.
  - intros (p & (u & Hrow & Hu)%list_elem_of_bind & Hp).
    case_decide as Hc; [|by apply elem_of_nil in Hrow].
    apply list_elem_of_singleton in Hrow as ->. cbn.
    rewrite elem_of_sources, elem_of_targets in Hc. tauto.
  - intros (Hp & Hu & Hcc & Hid & Hc). exists (sr_post row). split; [|done].
    apply list_elem_of_bind. exists (sr_user row). split; [|done].
    rewrite decide_True by (rewrite elem_of_sources, elem_of_targets; tauto).
    destruct row; cbn in *; subst. by left.
Qed.

Lemma validate_on_submit_GET v : validate_on_submit GET v = false.
Proof. reflexivity. Qed.

(** A signed-in GET of one's own friends page renders the friends list. *)
Lemma friends_read r name st uid user :
  session st !! "user_id" = Some uid →
  session st !! "username" = Some (VStr name) →
  SQL.select_user_by_id uid (db st) = Some user →
  req_method r = GET →
  run (friends r name) st =
    (Render (friends_html (Some (VStr name))
               (SQL.select_friends (User.id user) (User.id user) (db st)) (req_form r)),
     st).
Proof.
  intros Huid Hname Huser Hm. unfold friends.
  rewrite login_required_present by done.
  unfold friends_view. unfold_monad. rewrite Hname.
  rewrite decide_False by (by intros ?). rewrite Hm, validate_on_submit_GET. by mstep.
Qed.

(** A signed-in GET of one's own stream renders the [get_posts] rows. *)
Lemma stream_read cfg secure_filename r name st uid user :
  session st !! "user_id" = Some uid →
  session st !! "username" = Some (VStr name) →
  SQL.select_user_by_id uid (db st) = Some user →
  req_method r = GET →
  run (stream cfg secure_filename r name) st =
    (Render (stream_html (Some (VStr name)) (req_form r)
               (SQL.get_posts (User.id user) (User.id user) (User.id user) (db st))),
     st).
Proof.
  intros Huid Hname Huser Hm. unfold stream.
  rewrite login_required_present by done.
  unfold stream_view. unfold_monad. rewrite Hname.
  rewrite decide_False by (by intros ?). rewrite Hm, validate_on_submit_GET. by mstep.
Qed.

(** After a valid friend-add submission the page shows the friends list of
    the store as the submission left it. *)
Lemma friends_submission_render r username st uid user :
  session st !! "user_id" = Some uid →
  SQL.select_user_by_id uid (db st) = Some user →
  validate_on_submit (req_method r) (FriendsForm.validate (req_form r)) = true →
  fst (run (friends r username) st) =
    Render (friends_html (session st !! "username")
              (SQL.select_friends (User.id user) (User.id user)
                 (db (snd (run (friends r username) st))))
              (req_form r)).
Proof.
  intros Huid Huser Hv.
  destruct (validate_on_submit_POST _ _ Hv) as [Hm _]. rewrite Hm in Hv.
  unfold friends. rewrite login_required_present by done.
  unfold friends_view. unfold_monad.
  case_decide; mstep;
    (destruct (SQL.select_user_by_username _ _) as [friend|]; cbn; [|done]);
    (case_decide; cbn; [done|]); by case_decide.
Qed.

(** What a valid friend-add submission naming another user leaves in the
    store. *)
Lemma friends_submission_store r username st uid user friend :
  session st !! "user_id" = Some uid →
  SQL.select_user_by_id uid (db st) = Some user →
  validate_on_submit (req_method r) (FriendsForm.validate (req_form r)) = true →
  SQL.select_user_by_username (FriendsForm.username (req_form r)) (db st) = Some friend →
  User.id friend ≠ User.id user →
  let st' := snd (run (friends r username) st) in
  let e := edge (User.id user) (User.id friend) in
  uploaded st' = uploaded st ∧
  ((e ∈ Friends (db st) ∧ db st' = db st) ∨
   ((e ∉ Friends (db st)) ∧ db st' = SQL.insert_friend (User.id user) (User.id friend) (db st))).
Proof.
  intros Huid Huser Hv Hfriend Hne st' e. subst st' e.
  destruct (validate_on_submit_POST _ _ Hv) as [Hm _]. rewrite Hm in Hv.
  unfold friends. rewrite login_required_present by done.
  destruct (decide (edge (User.id user) (User.id friend) ∈ Friends (db st))) as [Hin|Hin];
    pose proof Hin as Hin'; rewrite <- elem_of_select_friend_ids in Hin';
    unfold friends_view; unfold_monad; (case_decide; mstep; (split; [done|]));
    [by left|by left|by right|by right].
Qed.

(** C6: A, signed in, submits B's username to the friends route, B being
    another user.  Afterwards the edge A -> B is stored and the page A gets
    lists B.  When B, signed in, then opens the friends page, A is listed
    there exactly if the edge B -> A was already stored, that is, if B added
    A on their own account; but B's stream shows every post of A, with A as
    its author. *)
Theorem friend_edge_directed_stream_both_ways
    (cfg : Config) (secure_filename : string → string)
    (r : Request FriendsForm.t) (username : string) (st : State)
    (uid : sval) (A B : User.row) :
  session st !! "user_id" = Some uid →
  SQL.select_user_by_id uid (db st) = Some A →
  validate_on_submit (req_method r) (FriendsForm.validate (req_form r)) = true →
  SQL.select_user_by_username (FriendsForm.username (req_form r)) (db st) = Some B →
  User.id B ≠ User.id A →
  let '(response, st') := run (friends r username) st in
  let a := User.id A in
  let b := User.id B in
  edge a b ∈ Friends (db st') ∧
  (∃ rows,
     response = Render (friends_html (session st !! "username") rows (req_form r)) ∧
     (edge a b, B) ∈ rows) ∧
  (∀ (rf : Request FriendsForm.t) (rs : Request PostForm.t) (fl : list (string * string)),
     req_method rf = GET →
     req_method rs = GET →
     let stB := {| session := session_of B; flashes := fl; db := db st';
                   uploaded := uploaded st' |} in
     (∃ rows,
        run (friends rf (User.username B)) stB =
          (Render (friends_html (Some (VStr (User.username B))) rows (req_form rf)), stB) ∧
        ((∃ f usr, (f, usr) ∈ rows ∧ Friend.f_id f = a) ↔ edge b a ∈ Friends (db st))) ∧
     (∃ posts,
        run (stream cfg secure_filename rs (User.username B)) stB =
          (Render (stream_html (Some (VStr (User.username B))) (req_form rs) posts), stB) ∧
        ∀ p, p ∈ Posts (db st') → Post.u_id p = a →
             {| sr_post := p; sr_user := A; sr_cc := SQL.comment_count p (db st') |}
               ∈ posts)).
Proof.
  intros Huid HA Hv HB Hne.
  pose proof (friends_submission_render r username st uid A Huid HA Hv) as Hrender.
  pose proof (friends_submission_store r username st uid A B Huid HA Hv HB Hne) as Hstore.
  destruct (run (friends r username) st) as [response st']. cbn in Hrender, Hstore.
  destruct Hstore as [_ Hstore].
  apply select_user_by_id_Some in HA as [HAin _].
  apply select_user_by_username_Some in HB as [HBin _].
  assert (Husers : Users (db st') = Users (db st)).
  { by destruct Hstore as [[_ ->]|[_ ->]]. }
  assert (Hedges : ∀ e, e ∈ Friends (db st') ↔
                        e ∈ Friends (db st) ∨ e = edge (User.id A) (User.id B)).
  { intros e. destruct Hstore as [[Hin ->]|[_ ->]].
    - split; [tauto|]. by intros [?| ->].
    - cbn. by rewrite elem_of_app, list_elem_of_singleton. }
  assert (Hab : edge (User.id A) (User.id B) ∈ Friends (db st')).
  { apply Hedges. by right. }
  rewrite <- Husers in HAin, HBin.
  split; [done|]. split.
  { eexists. split; [exact Hrender|]. by apply elem_of_select_friends. }
  intros rf rs fl Hrf Hrs stB.
  destruct (select_user_by_id_elem (db st') B HBin) as (B' & HB' & Hid).
  split.
  - eexists. split.
    { apply (friends_read rf _ stB (VInt (User.id B)) B');
        first [done | apply session_of_user_id | apply session_of_username]. }
    rewrite Hid. split.
    + intros ([u f] & usr & (Hf & _ & _ & Hu & _)%elem_of_select_friends & Hfa).
      cbn in *. subst u f. apply Hedges in Hf as [Hf|[= Hba _]]; [done|].
      by destruct Hne.
    + intros Hba. exists (edge (User.id B) (User.id A)), A. split; [|done].
      apply elem_of_select_friends.
      split; [apply Hedges; by left|]. split; [done|]. split; [done|].
      split; [done|]. cbn. congruence.
  - eexists. split.
    { apply (stream_read cfg secure_filename rs _ stB (VInt (User.id B)) B');
        first [done | apply session_of_user_id | apply session_of_username]. }
    rewrite Hid. intros p Hp Hpa. apply elem_of_get_posts. cbn.
    repeat split; try done. left. by rewrite Hpa.
Qed.

Lemma friend_edge_directed_stream_both_ways_witness :
  let r := Sample.request POST
             {| FriendsForm.username := "bob"; FriendsForm.validate := true |} in
  let rf := Sample.request GET
              {| FriendsForm.username := ""; FriendsForm.validate := false |} in
  let rs := Sample.request GET
              {| PostForm.content := ""; PostForm.image := None;
                 PostForm.validate := false |} in
  let st := Sample.signed_in Sample.alice Sample.store in
  let st' := snd (run (friends r "alice") st) in
  let stB := {| session := session_of Sample.bob; flashes := []; db := db st';
                uploaded := uploaded st' |} in
  edge 1 2 ∈ Friends (db st') ∧
  (∃ rows,
     fst (run (friends rf "bob") stB) =
       Render (friends_html (Some (VStr "bob")) rows (req_form rf)) ∧
     ¬ ∃ f usr, (f, usr) ∈ rows ∧ Friend.f_id f = 1) ∧
  (∃ posts,
     fst (run (stream Sample.cfg Sample.sanitize rs "bob") stB) =
       Render (stream_html (Some (VStr "bob")) (req_form rs) posts) ∧
     {| sr_post := Sample.post1; sr_user := Sample.alice; sr_cc := 0 |} ∈ posts).
Proof.
  intros r rf rs st st' stB.
  assert (Hne : User.id Sample.bob ≠ User.id Sample.alice) by discriminate.
  pose proof (friend_edge_directed_stream_both_ways Sample.cfg Sample.sanitize
                r "alice" st (VInt 1) Sample.alice Sample.bob
                eq_refl eq_refl eq_refl eq_refl Hne) as H.
  subst stB st'.
  destruct (run (friends r "alice") st) as [response st0] eqn:Hrun.
  destruct H as (He & _ & HB). cbn [snd].
  destruct (HB rf rs [] eq_refl eq_refl) as [(rows & Hrows & Hiff) (posts & Hposts & Hall)].
  split; [exact He|]. split.
  - exists rows. split; [exact (f_equal fst Hrows)|].
    rewrite Hiff. by intros ?%elem_of_nil.
  - exists posts. split; [exact (f_equal fst Hposts)|].
    assert (Hst0 : db st0 = SQL.insert_friend 1 2 Sample.store).
    { change st0 with (snd (response, st0)). by rewrite <- Hrun. }
    assert (Hin : Sample.post1 ∈ Posts (db st0)) by (rewrite Hst0; by left).
    pose proof (Hall Sample.post1 Hin eq_refl) as Hrow.
    by rewrite Hst0 in Hrow.
Defined.

(** * Further properties of the views *)

(** ** Index and logout *)

Lemma validate_on_submit_not_POST m v : m ≠ POST → validate_on_submit m v = false.
Proof. intros Hm. unfold validate_on_submit. by rewrite bool_decide_eq_false_2. Qed.

(** X1: logout empties the session, the notices queued in it included,
    then queues its own notice and redirects to the index page without
    touching the store or the uploaded files: the session it leaves holds the
    one notice "Logged out." and no other key.  In that state the guard
    turns every gated view away. *)
Theorem logout_signs_out (st : State) :
  let '(response, st') := run logout st in
  response = Redirect url_for_index ∧
  session st' = ∅ ∧
  flashes st' = [("info", "Logged out.")]%string ∧
  session_keys st' = {["_flashes"]} ∧
  db st' = db st ∧
  uploaded st' = uploaded st ∧
  ∀ Args (view : Args → M Response) (args : Args),
    run (login_required view args) st' =
      (Redirect url_for_index,
       with_flashes [("info", "Logged out."); ("warning", "Please sign in.")]%string st').
Proof.
  unfold logout. unfold_monad. cbn.
  do 3 (split; [done|]).
  split. { unfold session_keys. cbn. by rewrite dom_empty_L, (left_id_L ∅ (∪)). }
  do 2 (split; [done|]).
  intros Args view args.
  apply (login_required_absent view args
           (with_flashes [("info", "Logged out.")]%string
              (with_flashes [] (with_session ∅ st)))).
  apply lookup_empty.
Qed.

(** X2: a submitted login whose username matches no Users row gets the
    "does not exist" warning and the index page again; the session, the store
    and the uploaded files stay as they were, so a session that was signed in
    remains so. *)
Theorem login_unknown_user
    (defaults : Profile) (r : Request IndexForm.t) (st : State) :
  login_submitted r = true →
  SQL.select_user_by_username (LoginForm.username (IndexForm.login (req_form r))) (db st)
    = None →
  run (index defaults r) st =
    (Render (index_html (req_form r)),
     with_flashes (flashes st ++ [("warning", "Sorry, this user does not exist!")]%string)
       st).
Proof.
  unfold login_submitted. intros Hl Hnone.
  unfold index. unfold_monad. rewrite Hl. cbn. by rewrite Hnone.
Qed.

(** X3: a submitted login whose password differs from the one stored in the
    first row carrying the username gets the "wrong password" warning and the
    index page again; session, store and uploaded files stay as they were. *)
Theorem login_wrong_password
    (defaults : Profile) (r : Request IndexForm.t) (st : State) (user : User.row) :
  login_submitted r = true →
  SQL.select_user_by_username (LoginForm.username (IndexForm.login (req_form r))) (db st)
    = Some user →
  User.password user ≠ LoginForm.password (IndexForm.login (req_form r)) →
  run (index defaults r) st =
    (Render (index_html (req_form r)),
     with_flashes (flashes st ++ [("warning", "Sorry, wrong password!")]%string) st).
Proof.
  unfold login_submitted. intros Hl Huser Hpw.
  unfold index. unfold_monad. rewrite Hl. cbn. rewrite Huser. cbn.
  by rewrite decide_True.
Qed.

(** X4: a request to the index route that is not a POST submits neither
    sub-form, whatever the form fields and validators say: the page is
    rendered and nothing changes. *)
Theorem index_read_only
    (defaults : Profile) (r : Request IndexForm.t) (st : State) :
  req_method r ≠ POST →
  run (index defaults r) st = (Render (index_html (req_form r)), st).
Proof.
  intros Hm. unfold index. unfold_monad.
  by rewrite !validate_on_submit_not_POST.
Qed.

(** X5: the login sub-form has precedence.  When it is submitted, the
    registration branch is not run even if the registration sub-form is
    submitted and valid too: no row is inserted and the store is as it
    was. *)
Theorem login_precedes_registration
    (defaults : Profile) (r : Request IndexForm.t) (st : State) :
  login_submitted r = true →
  db (snd (run (index defaults r) st)) = db st ∧
  uploaded (snd (run (index defaults r) st)) = uploaded st.
Proof.
  unfold login_submitted. intros Hl.
  unfold index. unfold_monad. rewrite Hl. cbn.
  destruct (SQL.select_user_by_username _ _) as [user|]; cbn; [|done].
  case_decide; cbn; [done|]. by case_decide.
Qed.

(** ** What the gated routes leave alone *)

(** Split a view that has been unfolded into all of its paths. *)
Ltac view_paths :=
  unfold stream, comments, friends, profile, login_required,
    stream_view, comments_view, friends_view, profile_view;
  unfold_monad; unfold ret, raise, return_; cbn;
  repeat (first [case_match | case_decide]; simplify_eq/=); try done.

Lemma stream_session_frame cfg secure_filename r username st :
  session (snd (run (stream cfg secure_filename r username) st)) = session st.
Proof. view_paths. Qed.

Lemma comments_session_frame r username post_id st :
  session (snd (run (comments r username post_id) st)) = session st.
Proof. view_paths. Qed.

Lemma friends_session_frame r username st :
  session (snd (run (friends r username) st)) = session st.
Proof. view_paths. Qed.

Lemma profile_session_frame r username st :
  session (snd (run (profile r username) st)) = session st.
Proof. view_paths. Qed.

Lemma stream_store_frame cfg secure_filename r username st :
  let d := db st in
  let d' := db (snd (run (stream cfg secure_filename r username) st)) in
  Users d' = Users d ∧ Comments d' = Comments d ∧ Friends d' = Friends d ∧
  (Posts d' = Posts d ∨ ∃ p, Posts d' = Posts d ++ [p]).
Proof.
  view_paths; repeat split; try done; try (by left); right; by eexists.
Qed.

Lemma comments_store_frame r username post_id st :
  let d := db st in
  let st' := snd (run (comments r username post_id) st) in
  Users (db st') = Users d ∧ Posts (db st') = Posts d ∧ Friends (db st') = Friends d ∧
  uploaded st' = uploaded st ∧
  (Comments (db st') = Comments d ∨ ∃ c, Comments (db st') = Comments d ++ [c]).
Proof.
  view_paths; repeat split; try done; try (by left); right; by eexists.
Qed.

Lemma friends_store_frame r username st :
  let d := db st in
  let st' := snd (run (friends r username) st) in
  Users (db st') = Users d ∧ Posts (db st') = Posts d ∧ Comments (db st') = Comments d ∧
  uploaded st' = uploaded st ∧
  (Friends (db st') = Friends d ∨ ∃ e, Friends (db st') = Friends d ++ [e]).
Proof.
  view_paths; repeat split; try done; try (by left); right; by eexists.
Qed.

Lemma profile_store_frame r username st :
  let d := db st in
  let st' := snd (run (profile r username) st) in
  Posts (db st') = Posts d ∧ Comments (db st') = Comments d ∧ Friends (db st') = Friends d ∧
  uploaded st' = uploaded st ∧
  (db st' = d ∨
   ∃ uid, session st !! "user_id" = Some uid ∧
          db st' = SQL.update_profile (ProfileForm.data (req_form r)) uid d).
Proof.
  view_paths; repeat split; try done; try (by left); right; by eexists.
Qed.

Lemma gated_read_only_stream cfg secure_filename r username st :
  req_method r ≠ POST →
  let st' := snd (run (stream cfg secure_filename r username) st) in
  db st' = db st ∧ uploaded st' = uploaded st.
Proof.
  intros Hm. pose proof (validate_on_submit_not_POST _ (PostForm.validate (req_form r)) Hm).
  view_paths.
Qed.

Lemma gated_read_only_comments r username post_id st :
  req_method r ≠ POST →
  db (snd (run (comments r username post_id) st)) = db st.
Proof.
  intros Hm.
  pose proof (validate_on_submit_not_POST _ (CommentsForm.validate (req_form r)) Hm).
  view_paths.
Qed.

Lemma gated_read_only_friends r username st :
  req_method r ≠ POST →
  db (snd (run (friends r username) st)) = db st.
Proof.
  intros Hm.
  pose proof (validate_on_submit_not_POST _ (FriendsForm.validate (req_form r)) Hm).
  view_paths.
Qed.

Lemma gated_read_only_profile r username st :
  req_method r ≠ POST →
  db (snd (run (profile r username) st)) = db st.
Proof.
  intros Hm.
  pose proof (validate_on_submit_not_POST _ (ProfileForm.validate (req_form r)) Hm).
  view_paths.
Qed.

Lemma login_unknown_user_witness :
  run (index Sample.defaults (Demo.log_in "mallory" "x"))
      (Sample.signed_in Sample.alice Sample.store) =
    (Render (index_html (req_form (Demo.log_in "mallory" "x"))),
     with_flashes [("warning", "Sorry, this user does not exist!")]%string
       (Sample.signed_in Sample.alice Sample.store)).
Proof.
  apply (login_unknown_user Sample.defaults (Demo.log_in "mallory" "x")
           (Sample.signed_in Sample.alice Sample.store)); reflexivity.
Defined.

Lemma login_wrong_password_witness :
  run (index Sample.defaults (Demo.log_in "bob" "wonderland")) Sample.anonymous =
    (Render (index_html (req_form (Demo.log_in "bob" "wonderland"))),
     with_flashes [("warning", "Sorry, wrong password!")]%string Sample.anonymous).
Proof.
  apply (login_wrong_password Sample.defaults (Demo.log_in "bob" "wonderland")
           Sample.anonymous Sample.bob); [reflexivity|reflexivity|discriminate].
Defined.

Lemma index_read_only_witness :
  let r := Sample.request GET (req_form (Demo.sign_up "carol" "marvel")) in
  run (index Sample.defaults r) Sample.anonymous =
    (Render (index_html (req_form r)), Sample.anonymous).
Proof.
  intros r. apply (index_read_only Sample.defaults r Sample.anonymous). discriminate.
Defined.

Lemma login_precedes_registration_witness :
  let r := Sample.request POST
             {| IndexForm.login := IndexForm.login (req_form (Demo.log_in "bob" "builder"));
                IndexForm.register :=
                  IndexForm.register (req_form (Demo.sign_up "carol" "marvel")) |} in
  login_submitted r = true ∧
  Users (db (snd (run (index Sample.defaults r) Sample.anonymous))) = Users Sample.store.
Proof.
  intros r. split; [reflexivity|].
  destruct (login_precedes_registration Sample.defaults r Sample.anonymous eq_refl)
    as [Hdb _].
  by rewrite Hdb.
Defined.

Lemma stream_flash_frame cfg secure_filename r username st :
  let st' := snd (run (stream cfg secure_filename r username) st) in
  flashes st' = flashes st ∨ ∃ notice, flashes st' = flashes st ++ [notice].
Proof. view_paths; try (by left); right; by eexists. Qed.

Lemma comments_flash_frame r username post_id st :
  let st' := snd (run (comments r username post_id) st) in
  flashes st' = flashes st ∨ ∃ notice, flashes st' = flashes st ++ [notice].
Proof. view_paths; try (by left); right; by eexists. Qed.

Lemma friends_flash_frame r username st :
  let st' := snd (run (friends r username) st) in
  flashes st' = flashes st ∨ ∃ notice, flashes st' = flashes st ++ [notice].
Proof. view_paths; try (by left); right; by eexists. Qed.

Lemma profile_flash_frame r username st :
  let st' := snd (run (profile r username) st) in
  flashes st' = flashes st ∨ ∃ notice, flashes st' = flashes st ++ [notice].
Proof. view_paths; try (by left); right; by eexists. Qed.

(** X6: the gated routes leave the sign-in keys alone.  Whatever the
    request, a run of stream, comments, friends or profile changes no key of
    the session other than [_flashes]: the map of those keys, [user_id] and
    [username] among them, is the same after the run as before it, and the
    notices queued under [_flashes] are kept, with at most one appended.
    Only the index route (login) and logout write the other keys. *)
Theorem gated_routes_keep_session
    (cfg : Config) (secure_filename : string → string) (st : State) :
  let kept (st' : State) :=
    session st' = session st ∧
    (flashes st' = flashes st ∨ ∃ notice, flashes st' = flashes st ++ [notice]) in
  (∀ r username, kept (snd (run (stream cfg secure_filename r username) st))) ∧
  (∀ r username post_id, kept (snd (run (comments r username post_id) st))) ∧
  (∀ r username, kept (snd (run (friends r username) st))) ∧
  (∀ r username, kept (snd (run (profile r username) st))).
Proof.
  intros kept. subst kept. cbv beta.
  split; [|split; [|split]]; intros; split.
  - apply stream_session_frame.
  - apply stream_flash_frame.
  - apply comments_session_frame.
  - apply comments_flash_frame.
  - apply friends_session_frame.
  - apply friends_flash_frame.
  - apply profile_session_frame.
  - apply profile_flash_frame.
Qed.

(** X7: the store is append-only under the gated routes.  A run of the
    stream route leaves Users, Comments and Friends as they are and appends
    at most one row to Posts; the comments route appends at most one Comment
    and touches neither the other tables nor the uploaded files; the friends
    route appends at most one edge and touches nothing else; the profile
    route leaves Posts, Comments, Friends and the uploaded files alone.  No
    row of these tables is ever removed or rewritten. *)
Theorem gated_routes_append_only
    (cfg : Config) (secure_filename : string → string) (st : State) :
  (∀ r username,
     let d' := db (snd (run (stream cfg secure_filename r username) st)) in
     Users d' = Users (db st) ∧ Comments d' = Comments (db st) ∧
     Friends d' = Friends (db st) ∧
     (Posts d' = Posts (db st) ∨ ∃ p, Posts d' = Posts (db st) ++ [p])) ∧
  (∀ r username post_id,
     let st' := snd (run (comments r username post_id) st) in
     Users (db st') = Users (db st) ∧ Posts (db st') = Posts (db st) ∧
     Friends (db st') = Friends (db st) ∧ uploaded st' = uploaded st ∧
     (Comments (db st') = Comments (db st) ∨
      ∃ c, Comments (db st') = Comments (db st) ++ [c])) ∧
  (∀ r username,
     let st' := snd (run (friends r username) st) in
     Users (db st') = Users (db st) ∧ Posts (db st') = Posts (db st) ∧
     Comments (db st') = Comments (db st) ∧ uploaded st' = uploaded st ∧
     (Friends (db st') = Friends (db st) ∨
      ∃ e, Friends (db st') = Friends (db st) ++ [e])) ∧
  (∀ r username,
     let st' := snd (run (profile r username) st) in
     Posts (db st') = Posts (db st) ∧ Comments (db st') = Comments (db st) ∧
     Friends (db st') = Friends (db st) ∧ uploaded st' = uploaded st).
Proof.
  split; [|split; [|split]]; intros.
  - apply stream_store_frame.
  - apply comments_store_frame.
  - apply friends_store_frame.
  - destruct (profile_store_frame r username st) as (? & ? & ? & ? & _). done.
Qed.

(** X8: requests that are not POST are read-only on the gated routes: a
    GET or HEAD of stream, comments, friends or profile leaves the store as
    it is, and the stream route writes no file, whatever form data and
    validator verdict come with the request. *)
Theorem gated_routes_read_only
    (cfg : Config) (secure_filename : string → string) (st : State) :
  (∀ r username, req_method r ≠ POST →
     db (snd (run (stream cfg secure_filename r username) st)) = db st ∧
     uploaded (snd (run (stream cfg secure_filename r username) st)) = uploaded st) ∧
  (∀ r username post_id, req_method r ≠ POST →
     db (snd (run (comments r username post_id) st)) = db st) ∧
  (∀ r username, req_method r ≠ POST →
     db (snd (run (friends r username) st)) = db st) ∧
  (∀ r username, req_method r ≠ POST →
     db (snd (run (profile r username) st)) = db st).
Proof.
  split; [|split; [|split]]; intros.
  - by apply gated_read_only_stream.
  - by apply gated_read_only_comments.
  - by apply gated_read_only_friends.
  - by apply gated_read_only_profile.
Qed.

Lemma gated_routes_read_only_witness :
  let r := Sample.request GET (req_form (Demo.post "sneaky" (Some Demo.photo))) in
  let st := Sample.signed_in Sample.alice Sample.store in
  db (snd (run (stream Sample.cfg Sample.sanitize r "alice") st)) = Sample.store ∧
  uploaded (snd (run (stream Sample.cfg Sample.sanitize r "alice") st)) = None.
Proof.
  intros r st.
  destruct (gated_routes_read_only Sample.cfg Sample.sanitize st) as [Hstream _].
  apply (Hstream r "alice"). discriminate.
Defined.

(** ** Logging in, before and after other requests *)

Lemma head_filter_app {A} (P : A → Prop) `{∀ x, Decision (P x)} (l l' : list A) :
  is_Some (head (filter P l)) → head (filter P (l ++ l')) = head (filter P l).
Proof.
  rewrite filter_app. intros [x Hx]. by destruct (filter P l).
Qed.

Lemma head_filter_fmap {A} (P : A → Prop) `{∀ x, Decision (P x)} (f : A → A) (l : list A) :
  (∀ x, P (f x) ↔ P x) → head (filter P (f <$> l)) = f <$> head (filter P l).
Proof.
  intros Hf. induction l as [|x l IH]; [done|].
  rewrite fmap_cons. destruct (decide (P x)) as [Hx|Hx].
  - rewrite (filter_cons_True P x) by done.
    by rewrite filter_cons_True by (by apply Hf).
  - rewrite (filter_cons_False P x) by done.
    by rewrite filter_cons_False by (by rewrite Hf).
Qed.

(** The outcome of a submitted login depends on the store only through the
    id, username and password of the first row carrying the username. *)
Lemma index_login_outcome defaults r s fl up d1 d2 :
  login_submitted r = true →
  credentials <$> SQL.select_user_by_username
                    (LoginForm.username (IndexForm.login (req_form r))) d1 =
  credentials <$> SQL.select_user_by_username
                    (LoginForm.username (IndexForm.login (req_form r))) d2 →
  let run1 := run (index defaults r) {| session := s; flashes := fl; db := d1; uploaded := up |} in
  let run2 := run (index defaults r) {| session := s; flashes := fl; db := d2; uploaded := up |} in
  fst run1 = fst run2 ∧ session (snd run1) = session (snd run2) ∧
  flashes (snd run1) = flashes (snd run2).
Proof.
  unfold login_submitted. intros Hl Hcred.
  unfold index. unfold_monad. rewrite Hl. cbn.
  destruct (SQL.select_user_by_username _ d1) as [u1|],
           (SQL.select_user_by_username _ d2) as [u2|]; try done.
  injection Hcred as Hid Hname Hpw. cbn. rewrite Hid, Hname, Hpw.
  case_decide; cbn; [done|]. by case_decide.
Qed.

Lemma update_profile_Users p v d :
  Users (SQL.update_profile p v d) =
    (λ u, if decide (SQL.id_is v (User.id u)) then with_profile p u else u) <$> Users d.
Proof. reflexivity. Qed.

Lemma update_profile_select_by_username p v d name :
  SQL.select_user_by_username name (SQL.update_profile p v d) =
    (λ u, if decide (SQL.id_is v (User.id u)) then with_profile p u else u)
      <$> SQL.select_user_by_username name d.
Proof.
  unfold SQL.select_user_by_username. rewrite update_profile_Users.
  apply (head_filter_fmap (λ u, User.username u = name)).
  intros u. by case_decide.
Qed.

Lemma update_profile_select_by_id p v w d :
  SQL.select_user_by_id w (SQL.update_profile p v d) =
    (λ u, if decide (SQL.id_is v (User.id u)) then with_profile p u else u)
      <$> SQL.select_user_by_id w d.
Proof.
  unfold SQL.select_user_by_id. rewrite update_profile_Users.
  apply (head_filter_fmap (λ u, SQL.id_is w (User.id u))).
  intros u. by case_decide.
Qed.

Lemma update_profile_credentials p v d name :
  credentials <$> SQL.select_user_by_username name (SQL.update_profile p v d) =
  credentials <$> SQL.select_user_by_username name d.
Proof.
  rewrite update_profile_select_by_username.
  destruct (SQL.select_user_by_username name d) as [u|]; [|done].
  cbn. by case_decide.
Qed.

Lemma gated_credentials cfg secure_filename st name :
  (∀ r username,
     credentials <$> SQL.select_user_by_username name
                       (db (snd (run (stream cfg secure_filename r username) st))) =
     credentials <$> SQL.select_user_by_username name (db st)) ∧
  (∀ r username post_id,
     credentials <$> SQL.select_user_by_username name
                       (db (snd (run (comments r username post_id) st))) =
     credentials <$> SQL.select_user_by_username name (db st)) ∧
  (∀ r username,
     credentials <$> SQL.select_user_by_username name
                       (db (snd (run (friends r username) st))) =
     credentials <$> SQL.select_user_by_username name (db st)) ∧
  (∀ r username,
     credentials <$> SQL.select_user_by_username name
                       (db (snd (run (profile r username) st))) =
     credentials <$> SQL.select_user_by_username name (db st)).
Proof.
  unfold SQL.select_user_by_username at 1 3 5.
  split; [|split; [|split]]; intros.
  - destruct (stream_store_frame cfg secure_filename r username st) as [-> _]. done.
  - destruct (comments_store_frame r username post_id st) as [-> _]. done.
  - destruct (friends_store_frame r username st) as [-> _]. done.
  - destruct (profile_store_frame r username st) as (_ & _ & _ & _ & [->|(uid & _ & ->)]);
      [done|]. apply update_profile_credentials.
Qed.

(** X9: a login that succeeds establishes a session the gated routes
    accept.  With the password of the first row carrying the username, the
    index route redirects to that user's stream and leaves the store alone;
    in the state it leaves the guard lets every view through, and a GET of
    the user's own stream is answered with the stream page for that user's
    id, neither a redirect nor an error. *)
Theorem login_then_stream
    (cfg : Config) (secure_filename : string → string) (defaults : Profile)
    (r : Request IndexForm.t) (rs : Request PostForm.t) (st : State) (user : User.row) :
  login_submitted r = true →
  SQL.select_user_by_username (LoginForm.username (IndexForm.login (req_form r))) (db st)
    = Some user →
  User.password user = LoginForm.password (IndexForm.login (req_form r)) →
  req_method rs = GET →
  let '(response, st1) := run (index defaults r) st in
  response = Redirect (url_for_stream (Some (VStr (User.username user)))) ∧
  session st1 = session_of user ∧
  db st1 = db st ∧
  (∀ Args (view : Args → M Response) (args : Args),
     run (login_required view args) st1 = run (view args) st1) ∧
  run (stream cfg secure_filename rs (User.username user)) st1 =
    (Render (stream_html (Some (VStr (User.username user))) (req_form rs)
               (SQL.get_posts (User.id user) (User.id user) (User.id user) (db st))),
     st1).
Proof.
  intros Hl Huser Hpw Hm.
  rewrite (index_login_success defaults r st user) by done.
  apply select_user_by_username_Some in Huser as [Hin _].
  destruct (select_user_by_id_elem (db st) user Hin) as (user' & Huser' & Hid).
  split; [done|]. split; [done|]. split; [done|]. split.
  - intros. apply login_required_present. eexists. apply session_of_user_id.
  - pose proof (stream_read cfg secure_filename rs (User.username user)
                  (with_flashes [] (with_session (session_of user) st))
                  (VInt (User.id user)) user'
                  (session_of_user_id user) (session_of_username user) Huser' Hm) as H.
    by rewrite Hid in H.
Qed.

Lemma login_then_stream_witness :
  let '(response, st1) := run (index Sample.defaults (Demo.log_in "alice" "wonderland"))
                              Sample.anonymous in
  response = Redirect (url_for_stream (Some (VStr "alice"))) ∧
  run (stream Sample.cfg Sample.sanitize Demo.open_stream "alice") st1 =
    (Render (stream_html (Some (VStr "alice")) (req_form Demo.open_stream)
               [ {| sr_post := Sample.post1; sr_user := Sample.alice; sr_cc := 0 |} ]),
     st1).
Proof.
  pose proof (login_then_stream Sample.cfg Sample.sanitize Sample.defaults
                (Demo.log_in "alice" "wonderland") Demo.open_stream Sample.anonymous
                Sample.alice eq_refl eq_refl eq_refl eq_refl) as H.
  destruct (run (index Sample.defaults (Demo.log_in "alice" "wonderland")) Sample.anonymous)
    as [response st1].
  destruct H as (H1 & _ & _ & _ & H2). split; [exact H1|]. exact H2.
Defined.

(** X10: a registration never disturbs an account that exists.  The new row
    goes to the end of Users, so for a username that some row already
    carries, a login submitted after the registration looks at the same row
    as before and has the same outcome: the same response, the same session,
    the same notices. *)
Theorem registration_keeps_logins
    (defaults : Profile) (reg log : Request IndexForm.t) (st : State)
    (s : gmap string sval) (fl : list (string * string)) (up : option (gmap string string)) :
  register_submitted reg = true →
  login_submitted log = true →
  is_Some (SQL.select_user_by_username
             (LoginForm.username (IndexForm.login (req_form log))) (db st)) →
  let d' := db (snd (run (index defaults reg) st)) in
  let before := run (index defaults log)
                    {| session := s; flashes := fl; db := db st; uploaded := up |} in
  let after := run (index defaults log)
                   {| session := s; flashes := fl; db := d'; uploaded := up |} in
  SQL.select_user_by_username (LoginForm.username (IndexForm.login (req_form log))) d' =
  SQL.select_user_by_username (LoginForm.username (IndexForm.login (req_form log))) (db st) ∧
  fst after = fst before ∧
  session (snd after) = session (snd before) ∧
  flashes (snd after) = flashes (snd before).
Proof.
  intros Hr Hl Hsome d' before after.
  assert (Hsame : SQL.select_user_by_username
                    (LoginForm.username (IndexForm.login (req_form log))) d' =
                  SQL.select_user_by_username
                    (LoginForm.username (IndexForm.login (req_form log))) (db st)).
  { unfold d'. rewrite index_register by done. cbn.
    unfold SQL.select_user_by_username. cbn. by apply head_filter_app. }
  split; [done|].
  apply (index_login_outcome defaults log s fl up d' (db st) Hl). by rewrite Hsame.
Qed.

Lemma registration_keeps_logins_witness :
  let d' := db (snd (run (index Sample.defaults (Demo.sign_up "alice" "rabbit"))
                         Sample.anonymous)) in
  run (index Sample.defaults (Demo.log_in "alice" "wonderland"))
      {| session := ∅; flashes := []; db := d'; uploaded := None |} =
    (Redirect (url_for_stream (Some (VStr "alice"))),
     {| session := session_of Sample.alice; flashes := []; db := d'; uploaded := None |}).
Proof.
  intros d'.
  destruct (registration_keeps_logins Sample.defaults
              (Demo.sign_up "alice" "rabbit") (Demo.log_in "alice" "wonderland")
              Sample.anonymous ∅ [] None eq_refl eq_refl)
    as (Hsel & _).
  { by exists Sample.alice. }
  fold d' in Hsel.
  apply (index_login_success Sample.defaults (Demo.log_in "alice" "wonderland")
           {| session := ∅; flashes := []; db := d'; uploaded := None |} Sample.alice);
    [reflexivity|exact Hsel|reflexivity].
Defined.

(** X11: no gated route changes who can sign in.  After any run of stream,
    comments, friends or profile, a submitted login has the outcome it would
    have had before the run: no view rewrites an id, a username or a
    password, the profile update included. *)
Theorem gated_routes_keep_logins
    (cfg : Config) (secure_filename : string → string) (defaults : Profile)
    (log : Request IndexForm.t) (st : State)
    (s : gmap string sval) (fl : list (string * string)) (up : option (gmap string string)) :
  login_submitted log = true →
  let outcome (d : Database) :=
    let result := run (index defaults log)
                      {| session := s; flashes := fl; db := d; uploaded := up |} in
    (fst result, session (snd result), flashes (snd result)) in
  (∀ r username,
     outcome (db (snd (run (stream cfg secure_filename r username) st))) = outcome (db st)) ∧
  (∀ r username post_id,
     outcome (db (snd (run (comments r username post_id) st))) = outcome (db st)) ∧
  (∀ r username,
     outcome (db (snd (run (friends r username) st))) = outcome (db st)) ∧
  (∀ r username,
     outcome (db (snd (run (profile r username) st))) = outcome (db st)).
Proof.
  intros Hl outcome.
  assert (Hout : ∀ d1 d2,
            credentials <$> SQL.select_user_by_username
                              (LoginForm.username (IndexForm.login (req_form log))) d1 =
            credentials <$> SQL.select_user_by_username
                              (LoginForm.username (IndexForm.login (req_form log))) d2 →
            outcome d1 = outcome d2).
  { intros d1 d2 Hc. unfold outcome.
    destruct (index_login_outcome defaults log s fl up d1 d2 Hl Hc) as (-> & -> & ->).
    done. }
  destruct (gated_credentials cfg secure_filename st
              (LoginForm.username (IndexForm.login (req_form log))))
    as (H1 & H2 & H3 & H4).
  split; [|split; [|split]]; intros; apply Hout; auto.
Qed.

Lemma gated_routes_keep_logins_witness :
  let st := Sample.signed_in Sample.alice Sample.store in
  let d' := db (snd (run (profile (Demo.set_profile Demo.carol_profile) "alice") st)) in
  fst (run (index Sample.defaults (Demo.log_in "alice" "wonderland"))
           {| session := ∅; flashes := []; db := d'; uploaded := None |}) =
  Redirect (url_for_stream (Some (VStr "alice"))).
Proof.
  intros st d'.
  destruct (gated_routes_keep_logins Sample.cfg Sample.sanitize Sample.defaults
              (Demo.log_in "alice" "wonderland") st ∅ [] None eq_refl)
    as (_ & _ & _ & Hprofile).
  exact (f_equal (λ o, fst (fst o))
           (Hprofile (Demo.set_profile Demo.carol_profile) "alice")).
Defined.

(** ** Profile *)

Lemma profile_submission r username st uid :
  session st !! "user_id" = Some uid →
  validate_on_submit (req_method r) (ProfileForm.validate (req_form r)) = true →
  run (profile r username) st =
    (Redirect (url_for_profile (session st !! "username")),
     with_db (SQL.update_profile (ProfileForm.data (req_form r)) uid (db st)) st).
Proof.
  intros Huid Hv.
  destruct (validate_on_submit_POST _ _ Hv) as [Hm _]. rewrite Hm in Hv.
  unfold profile. rewrite login_required_present by done.
  unfold profile_view. unfold_monad. case_decide; by mstep.
Qed.

(** A signed-in request to one's own profile URL that submits nothing shows
    the row the session's id selects, if any. *)
Lemma profile_read r name st uid :
  session st !! "user_id" = Some uid →
  session st !! "username" = Some (VStr name) →
  validate_on_submit (req_method r) (ProfileForm.validate (req_form r)) = false →
  run (profile r name) st =
    (Render (profile_html (Some (VStr name)) (SQL.select_user_by_id uid (db st))
               (req_form r)),
     st).
Proof.
  intros Huid Hname Hv. unfold profile.
  rewrite login_required_present by done.
  unfold profile_view. unfold_monad. rewrite Hname.
  rewrite decide_False by (by intros ?). by mstep.
Qed.

Lemma update_profile_columns {A} (column : User.row → A) p v d :
  (∀ u, column (with_profile p u) = column u) →
  column <$> Users (SQL.update_profile p v d) = column <$> Users d.
Proof.
  intros Hcol. rewrite update_profile_Users, <- list_fmap_compose.
  apply list_fmap_ext. intros i u _. cbn. by case_decide.
Qed.

(** X12: a valid profile submission by a signed-in user redirects to the
    profile page and rewrites the six profile columns of the rows with the
    session's id, nothing else: ids, usernames, names and passwords of all
    rows stay in place and rows with another id are kept whole.  When the
    user then opens the profile page, it shows their row with exactly the
    submitted values. *)
Theorem profile_update_round_trip
    (r : Request ProfileForm.t) (username : string) (st : State) (uid : sval) :
  session st !! "user_id" = Some uid →
  validate_on_submit (req_method r) (ProfileForm.validate (req_form r)) = true →
  let '(response, st1) := run (profile r username) st in
  let submitted := ProfileForm.data (req_form r) in
  response = Redirect (url_for_profile (session st !! "username")) ∧
  User.id <$> Users (db st1) = User.id <$> Users (db st) ∧
  User.username <$> Users (db st1) = User.username <$> Users (db st) ∧
  User.password <$> Users (db st1) = User.password <$> Users (db st) ∧
  User.first_name <$> Users (db st1) = User.first_name <$> Users (db st) ∧
  User.last_name <$> Users (db st1) = User.last_name <$> Users (db st) ∧
  (∀ i u, Users (db st) !! i = Some u → uid ≠ VInt (User.id u) →
          Users (db st1) !! i = Some u) ∧
  (∀ rg name user,
     session st !! "username" = Some (VStr name) →
     SQL.select_user_by_id uid (db st) = Some user →
     req_method rg = GET →
     run (profile rg name) st1 =
       (Render (profile_html (Some (VStr name)) (Some (with_profile submitted user))
                  (req_form rg)),
        st1)).
Proof.
  intros Huid Hv. rewrite (profile_submission r username st uid) by done. cbn.
  split; [done|].
  do 5 (split; [by apply update_profile_columns|]).
  split.
  - intros i u Hi Hne. rewrite list_lookup_fmap, Hi. cbn.
    by rewrite decide_False.
  - intros rg name user Hname Huser Hm.
    rewrite (profile_read rg name _ uid); try done.
    + cbn. rewrite update_profile_select_by_id, Huser. cbn.
      apply select_user_by_id_Some in Huser as [_ Hid].
      by rewrite decide_True.
    + by rewrite Hm.
Qed.

Lemma profile_update_round_trip_witness :
  let st := Sample.signed_in Sample.alice Sample.store in
  let st1 := snd (run (profile (Demo.set_profile Demo.carol_profile) "alice") st) in
  Users (db st1) !! 1%nat = Some Sample.bob ∧
  run (profile Demo.open_profile "alice") st1 =
    (Render (profile_html (Some (VStr "alice"))
               (Some (with_profile Demo.carol_profile Sample.alice))
               (req_form Demo.open_profile)),
     st1).
Proof.
  intros st st1.
  pose proof (profile_update_round_trip (Demo.set_profile Demo.carol_profile) "alice" st
                (VInt 1) eq_refl eq_refl) as H.
  subst st1.
  destruct (run (profile (Demo.set_profile Demo.carol_profile) "alice") st)
    as [response st1].
  destruct H as (_ & _ & _ & _ & _ & _ & Hkeep & Hshow). split.
  - apply (Hkeep 1%nat Sample.bob); [reflexivity|discriminate].
  - apply (Hshow Demo.open_profile "alice" Sample.alice); reflexivity.
Defined.

(** ** A session whose user row is missing *)





(** ** Posting and uploading *)

Lemma stream_post_plain cfg secure_filename r username st uid user :
  session st !! "user_id" = Some uid →
  SQL.select_user_by_id uid (db st) = Some user →
  validate_on_submit (req_method r) (PostForm.validate (req_form r)) = true →
  (PostForm.image (req_form r) = None ∨
   ∃ fileobj, PostForm.image (req_form r) = Some fileobj ∧
              FileStorage.filename fileobj = ""%string) →
  run (stream cfg secure_filename r username) st =
    (Redirect (url_for_stream (session st !! "username")),
     with_db (SQL.insert_post (CURRENT_TIMESTAMP r) (User.id user)
                (PostForm.content (req_form r)) None (db st)) st).
Proof.
  intros Huid Huser Hv Himg.
  destruct (validate_on_submit_POST _ _ Hv) as [Hm _]. rewrite Hm in Hv.
  unfold stream. rewrite login_required_present by done.
  destruct Himg as [Himg|(fileobj & Himg & Hname)];
    unfold stream_view; unfold_monad; case_decide; by mstep.
Qed.

Lemma stream_post_upload cfg secure_filename r username st uid fileobj :
  session st !! "user_id" = Some uid →
  validate_on_submit (req_method r) (PostForm.validate (req_form r)) = true →
  PostForm.image (req_form r) = Some fileobj →
  FileStorage.filename fileobj ≠ ""%string →
  upload_ext (secure_filename (FileStorage.filename fileobj)) ∈ allowed_extensions cfg →
  let unique := stored_name r (secure_filename (FileStorage.filename fileobj)) in
  let written :=
    with_uploaded (Some (<[unique := FileStorage.stream fileobj]> (default ∅ (uploaded st))))
      st in
  run (stream cfg secure_filename r username) st =
    match SQL.select_user_by_id uid (db st) with
    | Some user =>
        (Redirect (url_for_stream (session st !! "username")),
         with_db (SQL.insert_post (CURRENT_TIMESTAMP r) (User.id user)
                    (PostForm.content (req_form r)) (Some unique) (db st)) written)
    | None => (Raised TypeError, written)
    end.
Proof.
  intros Huid Hv Himg Hname Hext unique written. subst unique written.
  destruct (validate_on_submit_POST _ _ Hv) as [Hm _]. rewrite Hm in Hv.
  apply String.eqb_neq in Hname.
  assert (Hnn : ¬ (upload_ext (secure_filename (FileStorage.filename fileobj))
                   ∉ allowed_extensions cfg)) by (by intros ?).
  unfold stream. rewrite login_required_present by done.
  unfold stream_view, stored_name. unfold_monad.
  case_decide; mstep; by destruct (SQL.select_user_by_id uid (db st)).
Qed.

(** X14: a valid post submission without an image (no file, or a file part
    with an empty name) by a signed-in user whose row exists appends one Post
    row with the user's id, the submitted text, no image and the current
    timestamp, writes no file, queues no notice and redirects to the stream.
    When the user then opens their stream, the new post is on the page with
    the user as its author. *)
Theorem post_without_image
    (cfg : Config) (secure_filename : string → string)
    (r : Request PostForm.t) (username : string) (st : State)
    (uid : sval) (user : User.row) :
  session st !! "user_id" = Some uid →
  SQL.select_user_by_id uid (db st) = Some user →
  validate_on_submit (req_method r) (PostForm.validate (req_form r)) = true →
  (PostForm.image (req_form r) = None ∨
   ∃ fileobj, PostForm.image (req_form r) = Some fileobj ∧
              FileStorage.filename fileobj = ""%string) →
  let '(response, st') := run (stream cfg secure_filename r username) st in
  let new_post := posted r user None (db st) in
  response = Redirect (url_for_stream (session st !! "username")) ∧
  Posts (db st') = Posts (db st) ++ [new_post] ∧
  uploaded st' = uploaded st ∧
  flashes st' = flashes st ∧
  (∀ rg name,
     session st !! "username" = Some (VStr name) →
     req_method rg = GET →
     ∃ posts,
       run (stream cfg secure_filename rg name) st' =
         (Render (stream_html (Some (VStr name)) (req_form rg) posts), st') ∧
       {| sr_post := new_post; sr_user := user;
          sr_cc := SQL.comment_count new_post (db st') |} ∈ posts).
Proof.
  intros Huid Huser Hv Himg.
  rewrite (stream_post_plain cfg secure_filename r username st uid user) by done.
  do 4 (split; [done|]).
  intros rg name Hname Hm. eexists. split.
  - by apply (stream_read cfg secure_filename rg name _ uid user).
  - apply elem_of_get_posts. cbn.
    apply select_user_by_id_Some in Huser as [Hin _].
    split; [apply elem_of_app; right; by left|]. repeat split; try done. by right; right.
Qed.

Lemma post_without_image_witness :
  let st := Sample.signed_in Sample.alice Sample.store in
  let st' := snd (run (stream Sample.cfg Sample.sanitize (Demo.post "second" None) "alice")
                      st) in
  Posts (db st') =
    [Sample.post1;
     {| Post.id := 2; Post.u_id := 1; Post.content := "second"; Post.image := None;
        Post.creation_time := 20 |}] ∧
  uploaded st' = None.
Proof.
  intros st st'.
  pose proof (post_without_image Sample.cfg Sample.sanitize (Demo.post "second" None)
                "alice" st (VInt 1) Sample.alice eq_refl eq_refl eq_refl
                (or_introl eq_refl)) as H.
  subst st'.
  destruct (run (stream Sample.cfg Sample.sanitize (Demo.post "second" None) "alice") st)
    as [response st'].
  destruct H as (_ & Hposts & Hup & _). split; [exact Hposts|exact Hup].
Defined.

(** X15: a valid post submission with a named file whose extension is in
    the allow-list, by a signed-in user whose row exists.  The uploads
    directory is created if it was absent; the file's content is written
    under the random token, an underscore and the sanitized name, replacing
    whatever had that name; every other file is as before.  One Post row is
    appended whose image column holds that stored name, no notice is queued,
    and the answer is the redirect to the stream. *)
Theorem upload_accepted
    (cfg : Config) (secure_filename : string → string)
    (r : Request PostForm.t) (username : string) (st : State)
    (uid : sval) (user : User.row) (fileobj : FileStorage.t) :
  session st !! "user_id" = Some uid →
  SQL.select_user_by_id uid (db st) = Some user →
  validate_on_submit (req_method r) (PostForm.validate (req_form r)) = true →
  PostForm.image (req_form r) = Some fileobj →
  FileStorage.filename fileobj ≠ ""%string →
  upload_ext (secure_filename (FileStorage.filename fileobj)) ∈ allowed_extensions cfg →
  let '(response, st') := run (stream cfg secure_filename r username) st in
  let unique := stored_name r (secure_filename (FileStorage.filename fileobj)) in
  response = Redirect (url_for_stream (session st !! "username")) ∧
  (∃ files, uploaded st' = Some files ∧
            files !! unique = Some (FileStorage.stream fileobj) ∧
            ∀ name, name ≠ unique → files !! name = default ∅ (uploaded st) !! name) ∧
  Posts (db st') = Posts (db st) ++ [posted r user (Some unique) (db st)] ∧
  flashes st' = flashes st.
Proof.
  intros Huid Huser Hv Himg Hname Hext.
  rewrite (stream_post_upload cfg secure_filename r username st uid fileobj) by done.
  rewrite Huser. split; [done|]. split; [|done].
  eexists. split; [done|]. split; [apply lookup_insert_eq|].
  intros name Hne. by apply lookup_insert_ne.
Qed.

Lemma upload_accepted_witness :
  let st := Sample.signed_in Sample.alice Sample.store in
  let r := Demo.post "my cat" (Some Demo.photo) in
  let '(response, st') := run (stream Sample.cfg Sample.sanitize r "alice") st in
  response = Redirect (url_for_stream (Some (VStr "alice"))) ∧
  (∃ files, uploaded st' = Some files ∧
            files !! "00112233aabbccdd_My_Cat.PNG" = Some "png-bytes"%string) ∧
  Post.image <$> Posts (db st') = [None; Some "00112233aabbccdd_My_Cat.PNG"%string].
Proof.
  intros st r.
  pose proof (upload_accepted Sample.cfg Sample.sanitize r "alice" st (VInt 1) Sample.alice
                Demo.photo eq_refl eq_refl eq_refl eq_refl) as H.
  destruct (run (stream Sample.cfg Sample.sanitize r "alice") st) as [response st'].
  destruct H as (Hresp & (files & Hup & Hfile & _) & Hposts & _).
  { discriminate. }
  { apply (bool_decide_unpack _). by vm_compute. }
  split; [exact Hresp|]. split; [by exists files|].
  by rewrite Hposts.
Defined.

(** X16: the same submission from a session whose user row is missing.  The
    file is written first and the user's id is read afterwards, so the view
    raises TypeError with the file already in the uploads directory and no
    Post row that refers to it. *)
Theorem upload_orphaned_on_stale_session
    (cfg : Config) (secure_filename : string → string)
    (r : Request PostForm.t) (username : string) (st : State)
    (uid : sval) (fileobj : FileStorage.t) :
  session st !! "user_id" = Some uid →
  SQL.select_user_by_id uid (db st) = None →
  validate_on_submit (req_method r) (PostForm.validate (req_form r)) = true →
  PostForm.image (req_form r) = Some fileobj →
  FileStorage.filename fileobj ≠ ""%string →
  upload_ext (secure_filename (FileStorage.filename fileobj)) ∈ allowed_extensions cfg →
  let '(response, st') := run (stream cfg secure_filename r username) st in
  let unique := stored_name r (secure_filename (FileStorage.filename fileobj)) in
  response = Raised TypeError ∧
  (∃ files, uploaded st' = Some files ∧
            files !! unique = Some (FileStorage.stream fileobj)) ∧
  db st' = db st.
Proof.
  intros Huid Huser Hv Himg Hname Hext.
  rewrite (stream_post_upload cfg secure_filename r username st uid fileobj) by done.
  rewrite Huser. split; [done|]. split; [|done].
  eexists. split; [done|]. apply lookup_insert_eq.
Qed.

Lemma upload_orphaned_on_stale_session_witness :
  let r := Demo.post "my cat" (Some Demo.photo) in
  let '(response, st') := run (stream Sample.cfg Sample.sanitize r "ghost") Demo.stale in
  response = Raised TypeError ∧
  (∃ files, uploaded st' = Some files ∧
            files !! "00112233aabbccdd_My_Cat.PNG" = Some "png-bytes"%string) ∧
  db st' = Sample.store.
Proof.
  intros r.
  apply (upload_orphaned_on_stale_session Sample.cfg Sample.sanitize r "ghost" Demo.stale
           (VInt 99) Demo.photo); try reflexivity.
  discriminate.
Defined.

(** ** Extensions on the way in and on the way out *)

Section ExtFacts.

Import Str.

Lemma rsplit_last_lower s : rsplit_last (lower s) = lower (rsplit_last s).
Proof.
  induction s as [|c r IH]; [done|].
  cbn [lower rsplit_last]. rewrite has_dot_lower, lower_ascii_dot.
  destruct (has_dot r); [done|]. by destruct (Ascii.eqb c ".").
Qed.

Lemma rsplit_last_prefixed p s : has_dot s = true → rsplit_last (p +:+ s) = rsplit_last s.
Proof.
  intros Hs. induction p as [|c p IH]; [done|].
  rewrite append_cons. cbn [rsplit_last].
  by rewrite has_dot_app, Hs, orb_true_r.
Qed.

End ExtFacts.

(** The two extension computations agree: lowering the name before the
    split, as the serving route does, gives what lowering the part after the
    split gives in the stream view. *)
Lemma serve_ext_lower raw : serve_ext (Str.lower raw) = upload_ext raw.
Proof.
  unfold serve_ext, upload_ext. by rewrite has_dot_lower, rsplit_last_lower.
Qed.

Lemma upload_ext_stored_name r raw :
  Str.has_dot (token_hex r) = false →
  upload_ext (stored_name r raw) = upload_ext raw.
Proof.
  intros Htoken. unfold upload_ext, stored_name.
  rewrite !has_dot_app, Htoken. cbn [Str.has_dot]. simpl Ascii.eqb. cbn [orb].
  destruct (Str.has_dot raw) eqn:Hraw; [|done].
  rewrite rsplit_last_prefixed, rsplit_last_prefixed; done.
Qed.

(** X17: what the stream view accepts, the serving route hands out, active
    content apart.  For a sanitized name whose extension passed the
    allow-list test on upload, stored under a token without a dot, the
    serving route's own allow-list test passes for the stored name: the file
    is sent from the uploads directory unless the stored name, in lowercase,
    ends in [.html], [.htm] or [.js], in which case the answer is forbidden
    although the upload went through.  This holds under every case mapping
    of the serving route that lowers the stored name as the ASCII mapping
    does, which [str.lower] does on the ASCII names the stream view stores. *)
Theorem stored_upload_served
    (cfg : Config) (str_lower : string → string)
    (r : Request PostForm.t) (raw : string) (st : State) :
  Str.has_dot (token_hex r) = false →
  upload_ext raw ∈ allowed_extensions cfg →
  let unique := stored_name r raw in
  str_lower unique = Str.lower unique →
  serve_ext (Str.lower unique) ∈ allowed_extensions cfg ∧
  (¬ ends_in_active_content (Str.lower unique) →
   run (uploads cfg str_lower unique) st =
     (SendFromDirectory (upload_dir cfg) unique, st)) ∧
  (ends_in_active_content (Str.lower unique) →
   run (uploads cfg str_lower unique) st = (Abort 403, st)).
Proof.
  intros Htoken Hext unique Hlower.
  assert (Hserve : serve_ext (Str.lower unique) ∈ allowed_extensions cfg).
  { unfold unique. by rewrite serve_ext_lower, upload_ext_stored_name. }
  split; [done|]. rewrite uploads_run, Hlower. split; intros Hactive.
  - destruct (Str.endswith_any (Str.lower unique) active_content) eqn:He.
    + by apply endswith_any_active in He.
    + by rewrite decide_False by (by intros ?).
  - apply endswith_any_active in Hactive. by rewrite Hactive.
Qed.

Lemma stored_upload_served_witness :
  let r := Demo.post "my cat" (Some Demo.photo) in
  run (uploads Sample.cfg Str.lower (stored_name r (Sample.sanitize "My Cat.PNG")))
      Sample.anonymous =
    (SendFromDirectory "instance/uploads" "00112233aabbccdd_My_Cat.PNG", Sample.anonymous).
Proof.
  intros r.
  destruct (stored_upload_served Sample.cfg Str.lower r (Sample.sanitize "My Cat.PNG")
              Sample.anonymous eq_refl) as (_ & Hserved & _).
  { apply (bool_decide_unpack _). by vm_compute. }
  { reflexivity. }
  apply Hserved. intros [stem [H|[H|H]]]; vm_compute in H;
    repeat (destruct stem as [|? stem]; try discriminate H).
Defined.

(** X18: without a configured allow-list nothing is served and nothing is
    stored.  When [ALLOWED_EXTENSIONS] is not set, the serving route answers
    forbidden for every name, and every valid post submission that attaches a
    named file is turned away with the file-type warning, whatever the
    name. *)
Theorem unset_allow_list_refuses_all
    (cfg : Config) (secure_filename : string → string) :
  ALLOWED_EXTENSIONS cfg = None →
  (∀ str_lower filename st,
     run (uploads cfg str_lower filename) st = (Abort 403, st)) ∧
  (∀ r username st fileobj,
     is_Some (session st !! "user_id") →
     validate_on_submit (req_method r) (PostForm.validate (req_form r)) = true →
     PostForm.image (req_form r) = Some fileobj →
     FileStorage.filename fileobj ≠ ""%string →
     run (stream cfg secure_filename r username) st =
       (Redirect (url_for_stream (session st !! "username")),
        with_flashes (flashes st ++ [("warning", "File type not allowed")]%string) st)).
Proof.
  intros Hunset.
  assert (Hnone : ∀ ext, ext ∉ allowed_extensions cfg).
  { intros ext. unfold allowed_extensions. rewrite Hunset. cbn. set_solver. }
  split.
  - intros str_lower filename st. rewrite uploads_run.
    destruct (Str.endswith_any _ _); [done|]. by rewrite decide_True.
  - intros r username st fileobj Hin Hv Himg Hname.
    by apply (stream_upload_rejected cfg secure_filename r username st fileobj).
Qed.

Lemma unset_allow_list_refuses_all_witness :
  let cfg := {| instance_path := "instance"; UPLOADS_FOLDER_PATH := "uploads";
                ALLOWED_EXTENSIONS := None |} in
  run (uploads cfg Str.lower "cat.png") Sample.anonymous = (Abort 403, Sample.anonymous) ∧
  run (stream cfg Sample.sanitize (Demo.post "my cat" (Some Demo.photo)) "alice")
      (Sample.signed_in Sample.alice Sample.store) =
    (Redirect (url_for_stream (Some (VStr "alice"))),
     with_flashes [("warning", "File type not allowed")]%string
       (Sample.signed_in Sample.alice Sample.store)).
Proof.
  intros cfg.
  destruct (unset_allow_list_refuses_all cfg Sample.sanitize eq_refl) as [Hserve Hstore].
  split; [apply Hserve|].
  apply (Hstore (Demo.post "my cat" (Some Demo.photo)) "alice"
           (Sample.signed_in Sample.alice Sample.store) Demo.photo); try reflexivity.
  - by exists (VInt 1).
  - discriminate.
Defined.

(** ** The pages *)

#[local] Instance desc_total {A} (key : A → Z) : Total (SQL.desc key).
Proof. intros x y. unfold SQL.desc. lia. Qed.

#[local] Instance desc_transitive {A} (key : A → Z) : Transitive (SQL.desc key).
Proof. intros x y z. unfold SQL.desc. lia. Qed.

Lemma StronglySorted_lookup_lt {A} (R : relation A) (l : list A) (i j : nat) (x y : A) :
  StronglySorted R l → (i < j)%nat → l !! i = Some x → l !! j = Some y → R x y.
Proof.
  intros Hsorted. revert i j.
  induction Hsorted as [|a l _ IH Hall]; intros i j Hij Hi Hj; [done|].
  destruct j as [|j]; [lia|]. cbn in Hj.
  destruct i as [|i]; cbn in Hi.
  - injection Hi as ->. rewrite Forall_forall in Hall.
    apply Hall. by eapply list_elem_of_lookup_2.
  - apply (IH i j); [lia|done|done].
Qed.

Lemma order_by_desc_newest_first {A} (key : A → Z) (rows : list A) :
  newest_first key (SQL.order_by_desc key rows).
Proof.
  intros i j x y Hij Hi Hj.
  apply (StronglySorted_lookup_lt (SQL.desc key) (SQL.order_by_desc key rows) i j x y);
    try done.
  apply StronglySorted_merge_sort; apply _.
Qed.

(** The comments of a post: each Comments row with that post id, once, with
    the row of a user whose id it carries. *)
Lemma elem_of_select_comments post_id d (c : Comment.row) (u : User.row) :
  (c, u) ∈ SQL.select_comments post_id d ↔
  c ∈ Comments d ∧ u ∈ Users d ∧ Comment.u_id c = User.id u ∧ Comment.p_id c = post_id.
Proof.
  unfold SQL.select_comments, SQL.order_by_desc.
  rewrite merge_sort_Permutation, elem_of_remove_dups, list_elem_of_bind. split.
  - intros (c' & (u' & Hrow & Hu)%list_elem_of_bind & Hc).
    case_decide as Hcond; [|by apply elem_of_nil in Hrow].
    apply list_elem_of_singleton in Hrow as [= -> ->]. tauto.
  - intros (Hc & Hu & Hcond). exists c. split; [|done].
    apply list_elem_of_bind. exists u. split; [|done].
    rewrite decide_True by tauto. by left.
Qed.

Lemma select_comments_NoDup post_id d : NoDup (SQL.select_comments post_id d).
Proof.
  unfold SQL.select_comments, SQL.order_by_desc.
  rewrite merge_sort_Permutation. apply NoDup_remove_dups.
Qed.

Lemma comments_read r name post_id st uid :
  session st !! "user_id" = Some uid →
  session st !! "username" = Some (VStr name) →
  validate_on_submit (req_method r) (CommentsForm.validate (req_form r)) = false →
  run (comments r name post_id) st =
    (Render (comments_html (Some (VStr name)) (req_form r)
               (SQL.select_post post_id (db st)) (SQL.select_comments post_id (db st))),
     st).
Proof.
  intros Huid Hname Hv. unfold comments.
  rewrite login_required_present by done.
  unfold comments_view. unfold_monad. rewrite Hname.
  rewrite decide_False by (by intros ?). by mstep.
Qed.

Lemma select_post_Some post_id d p u :
  SQL.select_post post_id d = Some (p, u) →
  p ∈ Posts d ∧ u ∈ Users d ∧ Post.id p = post_id ∧ Post.u_id p = User.id u.
Proof.
  unfold SQL.select_post. intros Hhead.
  assert (Hin : (p, u) ∈ (p ← Posts d; u ← Users d;
                          if decide (Post.u_id p = User.id u ∧ Post.id p = post_id)
                          then [(p, u)] else [])).
  { destruct (_ ≫= _) as [|row rows]; [done|]. injection Hhead as ->. by left. }
  apply list_elem_of_bind in Hin as (p' & (u' & Hrow & Hu)%list_elem_of_bind & Hp).
  case_decide as Hcond; [|by apply elem_of_nil in Hrow].
  apply list_elem_of_singleton in Hrow as [= -> ->]. tauto.
Qed.

(** X19: the stream page.  A signed-in GET of one's own stream is answered
    with the stream page; its rows come newest first by creation time, and a
    row is on the page exactly when it pairs a Post with a Users row of its
    author and the post's comment count, the author being the user or joined
    to the user by a Friends edge in either direction. *)
Theorem stream_page
    (cfg : Config) (secure_filename : string → string)
    (r : Request PostForm.t) (name : string) (st : State) (uid : sval) (user : User.row) :
  session st !! "user_id" = Some uid →
  session st !! "username" = Some (VStr name) →
  SQL.select_user_by_id uid (db st) = Some user →
  req_method r = GET →
  ∃ posts,
    run (stream cfg secure_filename r name) st =
      (Render (stream_html (Some (VStr name)) (req_form r) posts), st) ∧
    newest_first (λ row, Post.creation_time (sr_post row)) posts ∧
    ∀ row, row ∈ posts ↔
      sr_post row ∈ Posts (db st) ∧ sr_user row ∈ Users (db st) ∧
      sr_cc row = SQL.comment_count (sr_post row) (db st) ∧
      User.id (sr_user row) = Post.u_id (sr_post row) ∧
      (edge (Post.u_id (sr_post row)) (User.id user) ∈ Friends (db st) ∨
       edge (User.id user) (Post.u_id (sr_post row)) ∈ Friends (db st) ∨
       Post.u_id (sr_post row) = User.id user).
Proof.
  intros Huid Hname Huser Hm. eexists. split; [|split].
  - by apply (stream_read cfg secure_filename r name st uid user).
  - apply order_by_desc_newest_first.
  - apply elem_of_get_posts.
Qed.

Lemma stream_page_witness :
  let st := Sample.signed_in Sample.bob
              (SQL.insert_friend 1 2 Sample.store) in
  ∃ posts,
    run (stream Sample.cfg Sample.sanitize Demo.open_stream "bob") st =
      (Render (stream_html (Some (VStr "bob")) (req_form Demo.open_stream) posts), st) ∧
    {| sr_post := Sample.post1; sr_user := Sample.alice; sr_cc := 0 |} ∈ posts.
Proof.
  intros st.
  destruct (stream_page Sample.cfg Sample.sanitize Demo.open_stream "bob" st (VInt 2)
              Sample.bob eq_refl eq_refl eq_refl eq_refl) as (posts & Hrun & _ & Hin).
  exists posts. split; [exact Hrun|].
  apply Hin. cbn. split; [by left|]. split; [by left|].
  do 2 (split; [reflexivity|]). left. by left.
Defined.

Lemma select_post_is_Some post_id d p u :
  p ∈ Posts d → u ∈ Users d → Post.id p = post_id → Post.u_id p = User.id u →
  is_Some (SQL.select_post post_id d).
Proof.
  intros Hp Hu Hid Hauthor. unfold SQL.select_post.
  assert (Hin : (p, u) ∈ (p ← Posts d; u ← Users d;
                          if decide (Post.u_id p = User.id u ∧ Post.id p = post_id)
                          then [(p, u)] else [])).
  { apply list_elem_of_bind. exists p. split; [|done].
    apply list_elem_of_bind. exists u. split; [|done].
    rewrite decide_True by done. by left. }
  destruct (_ ≫= _) as [|row rows]; [by apply elem_of_nil in Hin|]. by eexists.
Qed.

(** X20: the comments page.  A signed-in request to one's own comments URL
    that submits nothing changes nothing and shows a post and the comments
    of the URL's post id.  The post shown is a Posts row with that id joined
    with a Users row of its author; one is shown whenever such a pair
    exists, it is the post and its author when no other row shares their
    ids, and no post is shown when no Post has the id.  The comments come
    newest first, no row twice, and are exactly the Comments rows with that
    post id, each with a Users row of its author. *)
Theorem comments_page
    (r : Request CommentsForm.t) (name : string) (post_id : Z) (st : State) (uid : sval) :
  session st !! "user_id" = Some uid →
  session st !! "username" = Some (VStr name) →
  validate_on_submit (req_method r) (CommentsForm.validate (req_form r)) = false →
  ∃ post rows,
    run (comments r name post_id) st =
      (Render (comments_html (Some (VStr name)) (req_form r) post rows), st) ∧
    (∀ p u, post = Some (p, u) →
            p ∈ Posts (db st) ∧ u ∈ Users (db st) ∧
            Post.id p = post_id ∧ Post.u_id p = User.id u) ∧
    (∀ p u, p ∈ Posts (db st) → u ∈ Users (db st) →
            Post.id p = post_id → Post.u_id p = User.id u →
            is_Some post ∧
            ((∀ q, q ∈ Posts (db st) → Post.id q = post_id → q = p) →
             (∀ v, v ∈ Users (db st) → User.id v = Post.u_id p → v = u) →
             post = Some (p, u))) ∧
    ((∀ p, p ∈ Posts (db st) → Post.id p ≠ post_id) → post = None) ∧
    newest_first (λ row, Comment.creation_time (fst row)) rows ∧
    NoDup rows ∧
    ∀ c u, (c, u) ∈ rows ↔
      c ∈ Comments (db st) ∧ u ∈ Users (db st) ∧
      Comment.u_id c = User.id u ∧ Comment.p_id c = post_id.
Proof.
  intros Huid Hname Hv. eexists _, _.
  split; [|split; [|split; [|split; [|split; [|split]]]]].
  - by apply (comments_read r name post_id st uid).
  - intros p u. apply select_post_Some.
  - intros p u Hp Hu Hid Hauthor.
    destruct (select_post_is_Some post_id (db st) p u Hp Hu Hid Hauthor) as [[q v] Hqv].
    split; [by eexists|]. intros Honly_p Honly_u. rewrite Hqv.
    apply select_post_Some in Hqv as (Hq & Hv' & Hqid & Hqv).
    assert (q = p) as -> by (by apply Honly_p).
    assert (v = u) as -> by (by apply Honly_u). done.
  - apply select_post_absent.
  - apply order_by_desc_newest_first.
  - apply select_comments_NoDup.
  - apply elem_of_select_comments.
Qed.

Lemma comments_page_witness :
  let st := Sample.signed_in Sample.alice Sample.store in
  (∃ post rows,
     run (comments Demo.open_comments "alice" 7) st =
       (Render (comments_html (Some (VStr "alice")) (req_form Demo.open_comments) post rows),
        st) ∧
     post = None ∧ NoDup rows) ∧
  (∃ rows,
     run (comments Demo.open_comments "alice" 1) st =
       (Render (comments_html (Some (VStr "alice")) (req_form Demo.open_comments)
                  (Some (Sample.post1, Sample.alice)) rows),
        st)).
Proof.
  intros st. split.
  - destruct (comments_page Demo.open_comments "alice" 7 st (VInt 1)
                eq_refl eq_refl eq_refl)
      as (post & rows & Hrun & _ & _ & Hnone & _ & Hnodup & _).
    exists post, rows. split; [exact Hrun|]. split; [|exact Hnodup].
    apply Hnone. intros p [->|[]%elem_of_nil]%elem_of_cons. discriminate.
  - destruct (comments_page Demo.open_comments "alice" 1 st (VInt 1)
                eq_refl eq_refl eq_refl)
      as (post & rows & Hrun & _ & Hshown & _).
    exists rows.
    destruct (Hshown Sample.post1 Sample.alice) as [_ Hexact];
      [by left|by left|reflexivity|reflexivity|].
    rewrite <- Hexact; [exact Hrun| |].
    + by intros q [->|[]%elem_of_nil]%elem_of_cons _.
    + intros v [->|[->|[]%elem_of_nil]%elem_of_cons]%elem_of_cons Hid;
        [done|discriminate Hid].
Defined.

(** X21: a comment is on the page that answers its submission.  After a
    valid comment submission by a signed-in user whose row exists, the
    rendered page lists the new comment with the commenter's row, still
    lists every comment the post had before, and keeps the newest-first
    order. *)
Theorem comment_round_trip
    (r : Request CommentsForm.t) (username : string) (post_id : Z) (st : State)
    (uid : sval) (user : User.row) :
  session st !! "user_id" = Some uid →
  SQL.select_user_by_id uid (db st) = Some user →
  validate_on_submit (req_method r) (CommentsForm.validate (req_form r)) = true →
  let '(response, st') := run (comments r username post_id) st in
  ∃ post rows,
    response = Render (comments_html (session st !! "username") (req_form r) post rows) ∧
    (commented r post_id user (db st), user) ∈ rows ∧
    (∀ row, row ∈ SQL.select_comments post_id (db st) → row ∈ rows) ∧
    newest_first (λ row, Comment.creation_time (fst row)) rows.
Proof.
  intros Huid Huser Hv.
  rewrite (comments_submission r username post_id st uid user) by done.
  apply select_user_by_id_Some in Huser as [Hin _].
  eexists _, _. split; [done|]. split; [|split].
  - apply elem_of_select_comments. cbn.
    split; [apply elem_of_app; right; by left|]. done.
  - intros [c u] (Hc & Hu & Hcond)%elem_of_select_comments.
    apply elem_of_select_comments. cbn.
    split; [apply elem_of_app; by left|]. done.
  - apply order_by_desc_newest_first.
Qed.

Lemma comment_round_trip_witness :
  let st := Sample.signed_in Sample.bob Sample.store in
  let '(response, st') := run (comments (Demo.comment "nice") "bob" 1) st in
  ∃ post rows,
    response = Render (comments_html (Some (VStr "bob")) (req_form (Demo.comment "nice"))
                         post rows) ∧
    ({| Comment.id := 1; Comment.p_id := 1; Comment.u_id := 2; Comment.comment := "nice";
        Comment.creation_time := 20 |}, Sample.bob) ∈ rows.
Proof.
  intros st.
  pose proof (comment_round_trip (Demo.comment "nice") "bob" 1 st (VInt 2) Sample.bob
                eq_refl eq_refl eq_refl) as H.
  destruct (run (comments (Demo.comment "nice") "bob" 1) st) as [response st'].
  destruct H as (post & rows & Hresp & Hnew & _).
  exists post, rows. split; [exact Hresp|exact Hnew].
Defined.

(** X22: the friends page.  A signed-in GET of one's own friends page
    changes nothing and lists exactly the edges that start at the user, each
    with a Users row of the user it points to; an edge from the user to
    themselves is never listed, whatever the Friends table holds. *)
Theorem friends_page
    (r : Request FriendsForm.t) (name : string) (st : State) (uid : sval) (user : User.row) :
  session st !! "user_id" = Some uid →
  session st !! "username" = Some (VStr name) →
  SQL.select_user_by_id uid (db st) = Some user →
  req_method r = GET →
  ∃ rows,
    run (friends r name) st =
      (Render (friends_html (Some (VStr name)) rows (req_form r)), st) ∧
    (∀ f u, (f, u) ∈ rows ↔
       f ∈ Friends (db st) ∧ u ∈ Users (db st) ∧ Friend.f_id f = User.id u ∧
       Friend.u_id f = User.id user ∧ Friend.f_id f ≠ User.id user) ∧
    (∀ f u, (f, u) ∈ rows → User.id u ≠ User.id user).
Proof.
  intros Huid Hname Huser Hm. eexists. split; [|split].
  - by apply (friends_read r name st uid user).
  - intros f u. apply elem_of_select_friends.
  - intros f u (_ & _ & Hid & _ & Hne)%elem_of_select_friends. congruence.
Qed.

Lemma friends_page_witness :
  let st := Sample.signed_in Sample.alice
              {| Users := [Sample.alice; Sample.bob]; Posts := []; Comments := [];
                 Friends := [edge 1 1; edge 1 2; edge 2 1] |} in
  ∃ rows,
    run (friends Demo.open_friends "alice") st =
      (Render (friends_html (Some (VStr "alice")) rows (req_form Demo.open_friends)), st) ∧
    (edge 1 2, Sample.bob) ∈ rows ∧
    (edge 1 1, Sample.alice) ∉ rows.
Proof.
  intros st.
  destruct (friends_page Demo.open_friends "alice" st (VInt 1) Sample.alice
              eq_refl eq_refl eq_refl eq_refl) as (rows & Hrun & Hin & Hself).
  exists rows. split; [exact Hrun|]. split.
  - apply Hin. cbn. split; [right; by left|]. split; [right; by left|]. done.
  - intros Hloop. by apply (Hself _ _ Hloop).
Defined.

(** ** A submission sent to another user's URL *)









